(** * Function template compilation (package/lib/compileFunctions.js)

    A shallow embedding of [compileFunctions] and of the helpers defined next
    to it: the handler, VPC connector, egress and ingress validators and
    [getFunctionTemplate].

    JavaScript values are embedded as a small inductive type, objects as
    association lists kept in property-enumeration order, the regular
    expression literal of the VPC validator as a regular-expression term
    together with a derivative matcher, and the mutable plugin instance
    ([this.serverless], the log, the resources array) as an explicit state
    threaded through a state-and-exception monad. *)

From Stdlib Require Import String Ascii List ZArith Bool Arith Lia DecimalString.
Import ListNotations.
Local Open Scope string_scope.

Set Implicit Arguments.

(** ** JavaScript values *)

(** Numbers are the integers a YAML/JSON configuration holds, [VNum n] being
    the double nearest to [n] (fractions and [NaN] are outside the type);
    strings are byte strings.  An object is the list of its own enumerable
    properties, in the order [Object.keys] reports them. *)
#[warnings="-register-all"]
Inductive value : Type :=
| VUndefined
| VNull
| VBool (b : bool)
| VNum (n : Z)
| VStr (s : string)
| VObj (o : list (string * value))
| VArr (l : list value).

Definition obj : Type := list (string * value).

(** ToBoolean. *)
Definition truthy (v : value) : bool :=
  match v with
  | VUndefined | VNull => false
  | VBool b => b
  | VNum n => negb (Z.eqb n 0)
  | VStr s => negb (String.eqb s "")
  | VObj _ | VArr _ => true
  end.

(** [a || b] *)
Definition js_or (a b : value) : value := if truthy a then a else b.

(** [typeof v === 'string'] *)
Definition is_string (v : value) : bool :=
  match v with VStr _ => true | _ => false end.

(** [v === s] for a string literal [s]. *)
Definition strict_eq_str (v : value) (s : string) : bool :=
  match v with VStr t => String.eqb t s | _ => false end.

Definition string_of_nat (n : nat) : string := NilZero.string_of_uint (Nat.to_uint n).
Definition string_of_Z (n : Z) : string := NilZero.string_of_int (Z.to_int n).

(** [Number.MAX_SAFE_INTEGER] *)
Definition MAX_SAFE_INTEGER : Z := 9007199254740991.

(** The double nearest to an integer [a] of at least 2^53, ties to the even
    mantissa: a mantissa of 53 bits and a binary exponent. *)
Definition nearest_double (a : Z) : Z * Z :=
  (let sh := Z.log2 a + 1 - 53 in
   let q := Z.shiftr a sh in
   let r := a - Z.shiftl q sh in
   let half := Z.shiftl 1 (sh - 1) in
   let q := if (half <? r) || ((half =? r) && Z.odd q) then q + 1 else q in
   if q =? 2 ^ 53 then (2 ^ 52, sh + 1) else (q, sh))%Z.

(** The integer [v] reads back as the double of mantissa [q] and exponent
    [sh]: it lies within half a step of it, the ends counting when the
    mantissa is even. *)
Definition reads_back (q sh v : Z) : bool :=
  (let d := 4 * (v - Z.shiftl q sh) in
   let hi := Z.shiftl 1 (sh + 1) in
   let lo := if q =? 2 ^ 52 then Z.shiftl 1 sh else hi in
   if Z.even q then (- lo <=? d) && (d <=? hi) else (- lo <? d) && (d <? hi))%Z.

(** The fewest decimal digits [s], with the power of ten [p] they are
    scaled by, that read back as the double; of two such the nearer, of two
    equally near the even one. *)
Fixpoint shortest_digits (q sh : Z) (p : nat) : Z * Z :=
  match p with
  | O => (Z.shiftl q sh, 0%Z)
  | S p' =>
      (let x := Z.shiftl q sh in
       let t := 10 ^ Z.of_nat p in
       let s0 := x / t in
       let below := (0 <? s0) && reads_back q sh (s0 * t) in
       let above := reads_back q sh ((s0 + 1) * t) in
       let nearer_above :=
         let da := (s0 + 1) * t - x in
         let db := x - s0 * t in
         (da <? db) || ((da =? db) && Z.even (s0 + 1)) in
       if below && above then (if nearer_above then s0 + 1 else s0, Z.of_nat p)
       else if below then (s0, Z.of_nat p)
       else if above then (s0 + 1, Z.of_nat p)
       else shortest_digits q sh p')%Z
  end.

(** Number::toString on a positive integer: the digits as they are up to
    2^53; beyond, the shortest digits that read back as the double, padded
    with zeros when the number has at most 21 digits and in exponent form
    otherwise; [Infinity] from 2^1024 on. *)
Definition positive_to_string (a : Z) : string :=
  if (a <=? 2 ^ 53)%Z then string_of_Z a
  else
    let (q, sh) := nearest_double a in
    if (971 <? sh)%Z then "Infinity"
    else
      let (s, p) := shortest_digits q sh (S (String.length (string_of_Z a))) in
      let digits := string_of_Z s in
      let n := (Z.of_nat (String.length digits) + p)%Z in
      if (n <=? 21)%Z then string_of_Z (s * 10 ^ p)
      else
        match digits with
        | EmptyString => EmptyString
        | String c EmptyString => String c EmptyString ++ "e+" ++ string_of_Z (n - 1)
        | String c rest => String c ("." ++ rest) ++ "e+" ++ string_of_Z (n - 1)
        end.

Definition number_to_string (n : Z) : string :=
  if (n =? 0)%Z then "0"
  else if (n <? 0)%Z then "-" ++ positive_to_string (- n)
  else positive_to_string n.

(** ToString, as a template literal [`${v}`] applies it. *)
Fixpoint toString (v : value) : string :=
  match v with
  | VUndefined => "undefined"
  | VNull => "null"
  | VBool true => "true"
  | VBool false => "false"
  | VNum n => number_to_string n
  | VStr s => s
  | VObj _ => "[object Object]"
  | VArr l =>
      (fix join (l : list value) : string :=
         match l with
         | [] => ""
         | x :: xs =>
             let e := match x with VUndefined | VNull => "" | _ => toString x end in
             match xs with [] => e | _ => e ++ "," ++ join xs end
         end) l
  end.

(** ** Objects *)

Fixpoint lookup (k : string) (o : obj) : option value :=
  match o with
  | [] => None
  | (k', v) :: o' => if String.eqb k k' then Some v else lookup k o'
  end.

(** [o.k] on a plain object, and lodash's [_.get(o, 'k')]. *)
Definition get (o : obj) (k : string) : value :=
  match lookup k o with Some v => v | None => VUndefined end.

(** Own-property test: a key may be present and hold [undefined]. *)
Definition has_key (k : string) (o : obj) : bool :=
  match lookup k o with Some _ => true | None => false end.

(** [o.k = v]: an existing property keeps its place, a new one goes last
    (JavaScript enumerates array-index names first; the names assigned by the
    compiler are not array indices). *)
Fixpoint set_prop (k : string) (v : value) (o : obj) : obj :=
  match o with
  | [] => [(k, v)]
  | (k', v') :: o' =>
      if String.eqb k k' then (k, v) :: o' else (k', v') :: set_prop k v o'
  end.

(** [delete o.k] *)
Fixpoint delete_prop (k : string) (o : obj) : obj :=
  match o with
  | [] => []
  | (k', v') :: o' =>
      if String.eqb k k' then delete_prop k o' else (k', v') :: delete_prop k o'
  end.

(** [_.assign(target, source)] for a plain-object source. *)
Definition assign (target source : obj) : obj :=
  fold_left (fun t kv => set_prop (fst kv) (snd kv) t) source target.

Fixpoint index_entries (i : nat) (l : list value) : obj :=
  match l with
  | [] => []
  | x :: xs => (string_of_nat i, x) :: index_entries (S i) xs
  end.

Definition chars (s : string) : list value :=
  map (fun c => VStr (String c EmptyString)) (list_ascii_of_string s).

(** The own enumerable properties of a value, boxed if it is a primitive. *)
Definition own_entries (v : value) : obj :=
  match v with
  | VObj o => o
  | VArr l => index_entries 0 l
  | VStr s => index_entries 0 (chars s)
  | _ => []
  end.

(** lodash's [isLength]: a number that can be the length of an array-like. *)
Definition isLength (v : value) : bool :=
  match v with
  | VNum n => ((0 <=? n) && (n <=? MAX_SAFE_INTEGER))%Z
  | _ => false
  end.

(** lodash's [_.size]: the length of an array-like (an array, a string, an
    object whose [length] is a length), the number of own keys of any other
    object, and zero for the rest.  The length of a string is counted in
    bytes here: it is zero exactly when the string is empty. *)
Definition size (v : value) : nat :=
  match v with
  | VObj o =>
      if isLength (get o "length")
      then match get o "length" with VNum n => Z.to_nat n | _ => 0 end
      else List.length o
  | VArr l => List.length l
  | VStr s => String.length s
  | _ => 0
  end.

(** ** Exceptions *)

Inductive exn : Type :=
| Error (message : string)
| TypeError.

Inductive result (A : Type) : Type :=
| Ok (a : A)
| Throw (e : exn).

Arguments Ok {A} a.
Arguments Throw {A} e.

Definition isOk {A} (r : result A) : bool :=
  match r with Ok _ => true | Throw _ => false end.

Definition rbind {A B} (r : result A) (f : A -> result B) : result B :=
  match r with Ok a => f a | Throw e => Throw e end.

(** [v[0]] *)
Definition get_index0 (v : value) : result value :=
  match v with
  | VUndefined | VNull => Throw TypeError
  | VArr l => Ok (nth 0 l VUndefined)
  | VStr s => Ok (nth 0 (chars s) VUndefined)
  | VObj o => Ok (get o "0")
  | VBool _ | VNum _ => Ok VUndefined
  end.

(** [v.k] for a property name [k] that no prototype defines and that is
    neither an index nor [length]. *)
Definition get_member (v : value) (k : string) : result value :=
  match v with
  | VUndefined | VNull => Throw TypeError
  | VObj o => Ok (get o k)
  | _ => Ok VUndefined
  end.

(** [Object.keys(v)] *)
Definition Object_keys (v : value) : result (list string) :=
  match v with
  | VUndefined | VNull => Throw TypeError
  | _ => Ok (map fst (own_entries v))
  end.

(** [ks[0]] on an array of strings. *)
Definition first_key (ks : list string) : value :=
  match ks with [] => VUndefined | k :: _ => VStr k end.

(** ** Regular expressions *)

(** The fragment of the regular-expression syntax the source uses: literal
    characters, the class [[\s\S]] (any character), concatenation and [*].
    [RVoid], [REps] and [RAlt] only arise as derivatives. *)
Inductive regex : Type :=
| RVoid
| REps
| RChar (c : ascii)
| RAny
| RSeq (r1 r2 : regex)
| RAlt (r1 r2 : regex)
| RStar (r : regex).

(** A regular-expression literal [/source/flags]. *)
Record RegExp : Type := { source : regex; ignoreCase : bool }.

(** Canonicalize of the [i] flag: upper-casing, which on byte strings only
    moves the ASCII letters. *)
Definition canonicalize (c : ascii) : ascii :=
  let n := nat_of_ascii c in
  if ((97 <=? n)%nat && (n <=? 122)%nat)%bool then ascii_of_nat (n - 32) else c.

Definition char_match (i : bool) (c d : ascii) : bool :=
  if i then Ascii.eqb (canonicalize c) (canonicalize d) else Ascii.eqb c d.

Fixpoint nullable (r : regex) : bool :=
  match r with
  | RVoid | RChar _ | RAny => false
  | REps | RStar _ => true
  | RSeq r1 r2 => nullable r1 && nullable r2
  | RAlt r1 r2 => nullable r1 || nullable r2
  end.

Definition mkSeq (r1 r2 : regex) : regex :=
  match r1 with
  | RVoid => RVoid
  | REps => r2
  | _ => RSeq r1 r2
  end.

Definition mkAlt (r1 r2 : regex) : regex :=
  match r1, r2 with
  | RVoid, _ => r2
  | _, RVoid => r1
  | _, _ => RAlt r1 r2
  end.

Fixpoint deriv (i : bool) (c : ascii) (r : regex) : regex :=
  match r with
  | RVoid | REps => RVoid
  | RChar d => if char_match i d c then REps else RVoid
  | RAny => REps
  | RSeq r1 r2 =>
      mkAlt (mkSeq (deriv i c r1) r2) (if nullable r1 then deriv i c r2 else RVoid)
  | RAlt r1 r2 => mkAlt (deriv i c r1) (deriv i c r2)
  | RStar r1 => mkSeq (deriv i c r1) (RStar r1)
  end.

(** Whole-string acceptance. *)
Fixpoint accepts (i : bool) (r : regex) (s : string) : bool :=
  match s with
  | EmptyString => nullable r
  | String c s' => accepts i (deriv i c r) s'
  end.

(** [re.test(s)] for a pattern without anchors: some substring matches. *)
Definition regex_test (re : RegExp) (s : string) : bool :=
  accepts (ignoreCase re) (RSeq (RStar RAny) (RSeq (source re) (RStar RAny))) s.

Fixpoint lit (s : string) : regex :=
  match s with
  | EmptyString => REps
  | String c s' => RSeq (RChar c) (lit s')
  end.

(** The language of a regular expression. *)
Inductive re_match (i : bool) : regex -> string -> Prop :=
| MEps : re_match i REps ""
| MChar c d : char_match i c d = true -> re_match i (RChar c) (String d "")
| MAny d : re_match i RAny (String d "")
| MSeq r1 r2 s1 s2 :
    re_match i r1 s1 -> re_match i r2 s2 -> re_match i (RSeq r1 r2) (s1 ++ s2)
| MAltL r1 r2 s : re_match i r1 s -> re_match i (RAlt r1 r2) s
| MAltR r1 r2 s : re_match i r2 s -> re_match i (RAlt r1 r2) s
| MStarNil r : re_match i (RStar r) ""
| MStarCons r s1 s2 :
    re_match i r s1 -> re_match i (RStar r) s2 -> re_match i (RStar r) (s1 ++ s2).

(** ** The plugin instance *)

(** The state [compileFunctions] reads and writes through [this]:
    [serverless.service.provider] (its [compiledConfigurationTemplate.resources]
    array kept apart as [resources]), [serverless.service.package],
    [serverless.service.functions] and the lines given to
    [serverless.cli.log]. *)
Record Serverless : Type := {
  provider : obj;
  resources : list value;
  artifact : string;
  artifactDirectoryName : value;
  artifactFilePath : value;
  functions : list (string * obj);
  cli_log : list string
}.

Definition set_provider (p : obj) (this : Serverless) : Serverless :=
  {| provider := p; resources := resources this; artifact := artifact this;
     artifactDirectoryName := artifactDirectoryName this;
     artifactFilePath := artifactFilePath this;
     functions := functions this; cli_log := cli_log this |}.

Definition set_artifactFilePath (v : value) (this : Serverless) : Serverless :=
  {| provider := provider this; resources := resources this; artifact := artifact this;
     artifactDirectoryName := artifactDirectoryName this;
     artifactFilePath := v;
     functions := functions this; cli_log := cli_log this |}.

Definition push_resource (v : value) (this : Serverless) : Serverless :=
  {| provider := provider this; resources := resources this ++ [v];
     artifact := artifact this;
     artifactDirectoryName := artifactDirectoryName this;
     artifactFilePath := artifactFilePath this;
     functions := functions this; cli_log := cli_log this |}.

Definition push_log (line : string) (this : Serverless) : Serverless :=
  {| provider := provider this; resources := resources this; artifact := artifact this;
     artifactDirectoryName := artifactDirectoryName this;
     artifactFilePath := artifactFilePath this;
     functions := functions this; cli_log := cli_log this ++ [line] |}.

(** State and exceptions: a thrown exception keeps the mutations made so far. *)
Definition M (A : Type) : Type := Serverless -> result A * Serverless.

Definition ret {A} (a : A) : M A := fun this => (Ok a, this).

Definition bind {A B} (m : M A) (f : A -> M B) : M B :=
  fun this =>
    match m this with
    | (Ok a, this') => f a this'
    | (Throw e, this') => (Throw e, this')
    end.

Definition lift {A} (r : result A) : M A := fun this => (r, this).
Definition read {A} (f : Serverless -> A) : M A := fun this => (Ok (f this), this).
Definition modify (f : Serverless -> Serverless) : M unit := fun this => (Ok tt, f this).

Declare Scope js_scope.
Delimit Scope js_scope with js.
Notation "x <- m ;; k" := (bind m (fun x => k))
  (at level 61, m at next level, right associativity) : js_scope.
Notation "m ;; k" := (bind m (fun _ => k))
  (at level 61, right associativity) : js_scope.

Declare Scope result_scope.
Delimit Scope result_scope with result.
Notation "x <- r ;; k" := (rbind r (fun x => k))
  (at level 61, r at next level, right associativity) : result_scope.
Notation "r ;; k" := (rbind r (fun _ => k))
  (at level 61, right associativity) : result_scope.

(** [Array.prototype.forEach] with a callback that may throw. *)
Fixpoint forEach {A} (l : list A) (callback : A -> M unit) : M unit :=
  match l with
  | [] => ret tt
  | x :: xs => bind (callback x) (fun _ => forEach xs callback)
  end.

(** [serverless.service.getAllFunctions()] and [getFunction(name)] of the
    framework. *)
Definition getAllFunctions (this : Serverless) : list string :=
  map fst (functions this).

Fixpoint find_function (name : string) (fs : list (string * obj)) : option obj :=
  match fs with
  | [] => None
  | (n, f) :: fs' => if String.eqb name n then Some f else find_function name fs'
  end.

Definition dq : string := String (ascii_of_nat 34) EmptyString.

Definition getFunction (functionName : string) : M obj :=
  fun this =>
    match find_function functionName (functions this) with
    | Some f => (Ok f, this)
    | None =>
        (Throw (Error ("Function " ++ dq ++ functionName ++ dq
                         ++ " doesn't exist in this Service")), this)
    end.

(** ** The validators *)

(** The [errorMessage] of each validator: its parts, joined. *)
Definition missingHandlerMessage (functionName : string) : string :=
  "Missing " ++ dq ++ "handler" ++ dq ++ " property for function "
    ++ dq ++ functionName ++ dq ++ "."
    ++ " Your function needs a " ++ dq ++ "handler" ++ dq ++ "."
    ++ " Please check the docs for more info.".

Definition invalidVpcMessage (functionName : string) : string :=
  "The function " ++ dq ++ functionName ++ dq ++ " has invalid vpc connection name"
    ++ " VPC Connector name should follow projects/{project_id}/locations/{region}/connectors/{connector_name}"
    ++ " Please check the docs for more info.".

Definition invalidEgressMessage (functionName : string) : string :=
  "The function " ++ dq ++ functionName ++ dq ++ " has an invalid egress setting"
    ++ " Egress setting should be ALL_TRAFFIC, PRIVATE_RANGES_ONLY or VPC_CONNECTOR_EGRESS_SETTINGS_UNSPECIFIED"
    ++ " Please check the docs for more info.".

Definition invalidIngressMessage (functionName : string) : string :=
  "The function " ++ dq ++ functionName ++ dq ++ " has an invalid ingress setting"
    ++ " Ingress setting should be ALLOW_ALL, ALLOW_INTERNAL_ONLY, ALLOW_INTERNAL_AND_GCLB or INGRESS_SETTINGS_UNSPECIFIED"
    ++ " Please check the docs for more info.".

Definition validateHandlerProperty (funcObject : obj) (functionName : string)
  : result unit :=
  if negb (truthy (get funcObject "handler")) then
    Throw (Error (missingHandlerMessage functionName))
  else Ok tt.

(** [/projects\/[\s\S]*\/locations\/[\s\S]*\/connectors\/[\s\S]*/i] *)
Definition vpcNamePattern : RegExp :=
  {| source :=
       RSeq (lit "projects/")
         (RSeq (RStar RAny)
            (RSeq (lit "/locations/")
               (RSeq (RStar RAny)
                  (RSeq (lit "/connectors/") (RStar RAny)))));
     ignoreCase := true |}.

Definition validateVpcConnectorProperty (funcObject : obj) (functionName : string)
  : result unit :=
  if truthy (get funcObject "vpc") && is_string (get funcObject "vpc") then
    if negb (regex_test vpcNamePattern (toString (get funcObject "vpc"))) then
      Throw (Error (invalidVpcMessage functionName))
    else Ok tt
  else Ok tt.

(** [validTypes.includes(v)] *)
Definition includes (validTypes : list string) (v : value) : bool :=
  existsb (strict_eq_str v) validTypes.

Definition egressValidTypes : list string :=
  ["VPC_CONNECTOR_EGRESS_SETTINGS_UNSPECIFIED"; "PRIVATE_RANGES_ONLY"; "ALL_TRAFFIC"].

Definition validateVpcEgressProperty (funcObject : obj) (functionName : string)
  : result unit :=
  if truthy (get funcObject "egress") && is_string (get funcObject "egress") then
    if negb (includes egressValidTypes (get funcObject "egress")) then
      Throw (Error (invalidEgressMessage functionName))
    else Ok tt
  else Ok tt.

Definition ingressValidTypes : list string :=
  ["INGRESS_SETTINGS_UNSPECIFIED"; "ALLOW_ALL"; "ALLOW_INTERNAL_ONLY";
   "ALLOW_INTERNAL_AND_GCLB"].

Definition validateVpcIngressProperty (funcObject : obj) (functionName : string)
  : result unit :=
  if truthy (get funcObject "ingress") && is_string (get funcObject "ingress") then
    if negb (includes ingressValidTypes (get funcObject "ingress")) then
      Throw (Error (invalidIngressMessage functionName))
    else Ok tt
  else Ok tt.

(** ** The template *)

Record FunctionTemplate : Type := {
  type : string;
  name : value;
  properties : obj
}.

Definition with_properties (t : FunctionTemplate) (p : obj) : FunctionTemplate :=
  {| type := type t; name := name t; properties := p |}.

(** The template as the object pushed on the resources array. *)
Definition template_value (t : FunctionTemplate) : value :=
  VObj [("type", VStr (type t)); ("name", name t); ("properties", VObj (properties t))].

Definition getFunctionTemplate (funcObject : obj) (projectName region : value)
    (sourceArchiveUrl : string) : FunctionTemplate :=
  {| type := "gcp-types/cloudfunctions-v1:projects.locations.functions";
     name := get funcObject "name";
     properties :=
       [("parent", VStr ("projects/" ++ toString projectName
                           ++ "/locations/" ++ toString region));
        ("availableMemoryMb", VNum 256);
        ("runtime", VStr "nodejs10");
        ("timeout", VStr "60s");
        ("entryPoint", get funcObject "handler");
        ("function", get funcObject "name");
        ("sourceArchiveUrl", VStr sourceArchiveUrl)] |}.

(** ** Collaborators *)

(** What the compiler calls but does not define: [validateEventsProperty] of
    [shared/validate], and [getRuntime] and [getConfiguredEnvironment] of the
    provider class.  The last two read the provider configuration and the
    function object. *)
Record Collaborators : Type := {
  validateEventsProperty : obj -> string -> result unit;
  getRuntime : obj -> obj -> value;
  getConfiguredEnvironment : obj -> obj -> value
}.

(** [path.sep] on POSIX. *)
Definition path_sep : ascii := "/"%char.

(** [s.split(sep)] for a one-character separator. *)
Fixpoint split (sep : ascii) (s : string) : list string :=
  match s with
  | EmptyString => [EmptyString]
  | String c s' =>
      if Ascii.eqb c sep then EmptyString :: split sep s'
      else match split sep s' with
           | [] => [String c EmptyString]
           | seg :: segs => String c seg :: segs
           end
  end.

(** [a.pop()] on an array of strings, as a value. *)
Definition pop (a : list string) : value :=
  match rev a with [] => VUndefined | x :: _ => VStr x end.

(** ** compileFunctions *)

Section Compile.

Variable ext : Collaborators.

(** [funcObject.events[0]] *)
Definition firstEvent (funcObject : obj) : result value :=
  get_index0 (get funcObject "events").

(** [funcObject.events[0].event.k] *)
Definition eventField (funcObject : obj) (k : string) : result value :=
  (event0 <- firstEvent funcObject ;;
   event <- get_member event0 "event" ;;
   get_member event k)%result.

(** Line 86: [Object.keys(funcObject.events[0])[0]] *)
Definition eventTypeOf (funcObject : obj) : result value :=
  (event0 <- firstEvent funcObject ;;
   keys <- Object_keys event0 ;;
   Ok (first_key keys))%result.

(** Lines 86-103: the trigger, read off the first entry of [events]. *)
Definition compileTrigger (funcObject : obj) (properties : obj) : result obj :=
  (eventType <- eventTypeOf funcObject ;;
   properties <-
     (if strict_eq_str eventType "http" then
        event0 <- firstEvent funcObject ;;
        url <- get_member event0 "http" ;;
        let httpsTrigger := [] in
        let httpsTrigger := set_prop "url" url httpsTrigger in
        Ok (set_prop "httpsTrigger" (VObj httpsTrigger) properties)
      else Ok properties) ;;
   if strict_eq_str eventType "event" then
     type <- eventField funcObject "eventType" ;;
     path <- eventField funcObject "path" ;;
     resource <- eventField funcObject "resource" ;;
     let eventTrigger := [] in
     let eventTrigger := set_prop "eventType" type eventTrigger in
     let eventTrigger :=
       if truthy path then set_prop "path" path eventTrigger else eventTrigger in
     let eventTrigger := set_prop "resource" resource eventTrigger in
     Ok (set_prop "eventTrigger" (VObj eventTrigger) properties)
   else Ok properties)%result.

(** Lines 29-84 of the callback: the template with the overlaid fields,
    before the trigger is added.  [provider] is
    [this.serverless.service.provider] and [artifactFilePath] is
    [this.serverless.service.package.artifactFilePath], both as the callback
    finds them. *)
Definition overlayTemplate (provider : obj) (artifactFilePath projectName : value)
    (funcObject : obj) : FunctionTemplate :=
  let funcTemplate :=
    getFunctionTemplate funcObject projectName (get provider "region")
      ("gs://" ++ toString (get provider "deploymentBucketName")
         ++ "/" ++ toString artifactFilePath) in
  let properties := properties funcTemplate in
  let properties :=
    set_prop "serviceAccountEmail"
      (js_or (js_or (get funcObject "serviceAccountEmail")
                    (get provider "serviceAccountEmail")) VNull) properties in
  let properties :=
    set_prop "availableMemoryMb"
      (js_or (js_or (get funcObject "memorySize") (get provider "memorySize"))
             (VNum 256)) properties in
  let properties := set_prop "runtime" (getRuntime ext provider funcObject) properties in
  let properties :=
    set_prop "timeout"
      (js_or (js_or (get funcObject "timeout") (get provider "timeout"))
             (VStr "60s")) properties in
  let properties :=
    set_prop "environmentVariables"
      (getConfiguredEnvironment ext provider funcObject) properties in
  let properties :=
    if negb (truthy (get properties "serviceAccountEmail"))
    then delete_prop "serviceAccountEmail" properties else properties in
  let properties :=
    if truthy (get funcObject "vpc")
    then assign properties
           [("vpcConnector", js_or (get funcObject "vpc") (get provider "vpc"))]
    else properties in
  let properties :=
    if truthy (get funcObject "egress")
    then assign properties
           [("vpcConnectorEgressSettings",
             js_or (get funcObject "egress") (get provider "egress"))]
    else properties in
  let properties :=
    if truthy (get funcObject "ingress")
    then assign properties
           [("ingressSettings",
             js_or (get funcObject "ingress") (get provider "ingress"))]
    else properties in
  let properties :=
    if truthy (get funcObject "maxInstances")
    then set_prop "maxInstances" (get funcObject "maxInstances") properties
    else properties in
  let properties :=
    if Nat.eqb (size (get properties "environmentVariables")) 0
    then delete_prop "environmentVariables" properties else properties in
  let properties :=
    set_prop "labels"
      (VObj (assign (assign [] (own_entries (js_or (get provider "labels") (VObj []))))
                    (own_entries (js_or (get funcObject "labels") (VObj [])))))
      properties in
  with_properties funcTemplate properties.

(** Lines 25-103 of the callback: the validators, the overlay, the trigger. *)
Definition compileFunction (provider : obj) (artifactFilePath projectName : value)
    (funcObject : obj) (functionName : string) : result FunctionTemplate :=
  (validateHandlerProperty funcObject functionName ;;
   validateEventsProperty ext funcObject functionName ;;
   validateVpcConnectorProperty funcObject functionName ;;
   let funcTemplate := overlayTemplate provider artifactFilePath projectName funcObject in
   properties <- compileTrigger funcObject (properties funcTemplate) ;;
   Ok (with_properties funcTemplate properties))%result.

(** The callback given to [forEach]. *)
Definition compileCallback (projectName : value) (functionName : string) : M unit :=
  (funcObject <- getFunction functionName ;;
   modify (push_log ("Compiling function " ++ dq ++ functionName ++ dq ++ "...")) ;;
   provider <- read provider ;;
   artifactFilePath <- read artifactFilePath ;;
   funcTemplate <-
     lift (compileFunction provider artifactFilePath projectName funcObject functionName) ;;
   modify (push_resource (template_value funcTemplate)))%js.

Definition compileFunctions : M unit :=
  (artifactFilePath <- read artifact ;;
   let fileName := pop (split path_sep artifactFilePath) in
   projectName <- read (fun this => get (provider this) "project") ;;
   modify (fun this =>
             set_provider
               (set_prop "region"
                  (js_or (get (provider this) "region") (VStr "us-central1"))
                  (provider this)) this) ;;
   modify (fun this =>
             set_artifactFilePath
               (VStr (toString (artifactDirectoryName this) ++ "/" ++ toString fileName))
               this) ;;
   functionNames <- read getAllFunctions ;;
   forEach functionNames (compileCallback projectName))%js.

End Compile.

(** ** A concrete instance of the collaborators *)

(** Modelled from the spec: [validateEventsProperty] of [shared/validate],
    which is not part of this file.  It "fails if the events list is empty or
    malformed", the list being a "non-empty ordered sequence" of events, each
    "a single-key mapping"; the event kind itself is not rejected. *)
Definition specValidateEvents (funcObject : obj) (functionName : string) : result unit :=
  match get funcObject "events" with
  | VArr (e :: es) =>
      if forallb (fun e => match e with VObj [_] => true | _ => false end) (e :: es)
      then Ok tt
      else Throw (Error ("Malformed events for function " ++ functionName))
  | _ => Throw (Error ("Missing events for function " ++ functionName))
  end.

(** Modelled from the spec: [getRuntime] of the provider class, which
    "returns the target execution runtime identifier for a declaration". *)
Definition specGetRuntime (provider funcObject : obj) : value :=
  js_or (js_or (get funcObject "runtime") (get provider "runtime")) (VStr "nodejs10").

(** Modelled from the spec: [getConfiguredEnvironment] of the provider class,
    which "returns merged environment variables for a declaration". *)
Definition specGetConfiguredEnvironment (provider funcObject : obj) : value :=
  VObj (assign (assign [] (own_entries (get provider "environmentVariables")))
               (own_entries (get funcObject "environmentVariables"))).

Definition specCollaborators : Collaborators :=
  {| validateEventsProperty := specValidateEvents;
     getRuntime := specGetRuntime;
     getConfiguredEnvironment := specGetConfiguredEnvironment |}.

(** A provider configuration and plugin state to run examples on. *)
Definition sampleProvider : obj :=
  [("project", VStr "my-project"); ("deploymentBucketName", VStr "my-bucket")].

Definition sampleServerless (fs : list (string * obj)) (rs : list value) : Serverless :=
  {| provider := sampleProvider;
     resources := rs;
     artifact := ".serverless/my-service.zip";
     artifactDirectoryName := VStr "serverless/my-service/dev/1";
     artifactFilePath := VUndefined;
     functions := fs;
     cli_log := [] |}.

(** ** Declarations to run the compiler on *)

Definition httpEvents : value :=
  VArr [VObj [("http", VStr "https://example.com")]].

Definition declHttp : obj :=
  [("name", VStr "svc-dev-hello"); ("handler", VStr "hello"); ("events", httpEvents)].

Definition declEvent : obj :=
  [("name", VStr "svc-dev-onFile"); ("handler", VStr "onFile");
   ("events",
    VArr [VObj [("event",
                 VObj [("eventType", VStr "google.storage.object.finalize");
                       ("resource", VStr "my-bucket")])]])].

(** An event whose [path] is there but empty. *)
Definition declEventEmptyPath : obj :=
  [("name", VStr "svc-dev-onFile"); ("handler", VStr "onFile");
   ("events",
    VArr [VObj [("event",
                 VObj [("eventType", VStr "google.storage.object.finalize");
                       ("path", VStr "");
                       ("resource", VStr "my-bucket")])]])].

(** An event kind that is neither [http] nor [event]. *)
Definition declUnknownEvent : obj :=
  [("name", VStr "svc-dev-hello"); ("handler", VStr "hello");
   ("events", VArr [VObj [("htpp", VStr "https://example.com")]])].


Definition declVpc (vpc : string) : obj :=
  [("name", VStr "svc-dev-hello"); ("handler", VStr "hello"); ("events", httpEvents);
   ("vpc", VStr vpc)].

Definition declEgressIngress (egress ingress : string) : obj :=
  [("name", VStr "svc-dev-hello"); ("handler", VStr "hello"); ("events", httpEvents);
   ("egress", VStr egress); ("ingress", VStr ingress)].

Definition declMemoryTimeout (memorySize timeout : value) : obj :=
  [("name", VStr "svc-dev-hello"); ("handler", VStr "hello"); ("events", httpEvents);
   ("memorySize", memorySize); ("timeout", timeout)].

(** A provider configuration with defaults of its own. *)
Definition providerWithDefaults : obj :=
  [("project", VStr "my-project"); ("region", VStr "europe-west1");
   ("deploymentBucketName", VStr "my-bucket");
   ("memorySize", VNum 128); ("timeout", VStr "30s");
   ("vpc", VStr "projects/p/locations/r/connectors/shared");
   ("egress", VStr "ALL_TRAFFIC"); ("ingress", VStr "ALLOW_ALL")].

Definition sampleArtifactFilePath : value :=
  VStr "serverless/my-service/dev/1/my-service.zip".

(** [compileFunction] on the sample configuration. *)
Definition compileSample (provider : obj) (funcObject : obj) : result FunctionTemplate :=
  compileFunction specCollaborators provider sampleArtifactFilePath (VStr "my-project")
    funcObject "hello".


(** A service of two valid functions and one resource already in place. *)
Definition serviceOfTwo : Serverless :=
  sampleServerless
    [("hello", declHttp); ("onFile", declEvent)]
    [VObj [("type", VStr "storage.v1.bucket"); ("name", VStr "my-bucket")]].

(** The sample provider once its region has been defaulted. *)
Definition plainProvider : obj :=
  set_prop "region" (VStr "us-central1") sampleProvider.

(** ** Vocabulary of the statements *)

(** The plugin state once lines 13-18 have run: the region defaulted and the
    artifact path set. *)
Definition withDefaults (this : Serverless) : Serverless :=
  set_artifactFilePath
    (VStr (toString (artifactDirectoryName this) ++ "/"
             ++ toString (pop (split path_sep (artifact this)))))
    (set_provider
       (set_prop "region" (js_or (get (provider this) "region") (VStr "us-central1"))
          (provider this)) this).

(** What the callback makes of the declaration [funcObject] named
    [functionName] during [compileFunctions] on [this]. *)
Definition templateOf (ext : Collaborators) (this : Serverless)
    (functionName : string) (funcObject : obj) : result FunctionTemplate :=
  compileFunction ext (provider (withDefaults this)) (artifactFilePath (withDefaults this))
    (get (provider this) "project") funcObject functionName.

(** The first event can be read without a [TypeError]. *)
Definition triggerResolves (funcObject : obj) : bool :=
  isOk (compileTrigger funcObject []).


(** The line logged for a function. *)
Definition logLine (functionName : string) : string :=
  "Compiling function " ++ dq ++ functionName ++ dq ++ "...".

(** The plugin state after the callback has logged [names] and pushed the
    templates [ts]. *)
Definition compiled (this : Serverless) (names : list string)
    (ts : list FunctionTemplate) : Serverless :=
  {| provider := provider this;
     resources := resources this ++ map template_value ts;
     artifact := artifact this;
     artifactDirectoryName := artifactDirectoryName this;
     artifactFilePath := artifactFilePath this;
     functions := functions this;
     cli_log := cli_log this ++ map logLine names |}.

(** Exactly one of the two trigger keys is in the properties. *)
Definition exactlyOneTrigger (tpl : FunctionTemplate) : Prop :=
  xorb (has_key "httpsTrigger" (properties tpl))
       (has_key "eventTrigger" (properties tpl)) = true.

(** A property that is there only under a condition. *)
Definition optional (b : bool) (k : string) (v : value) : obj :=
  if b then [(k, v)] else [].

(** Case-insensitive equality with a literal of the pattern. *)
Fixpoint ci_eqb (i : bool) (p s : string) : bool :=
  match p, s with
  | EmptyString, EmptyString => true
  | String c p', String d s' => char_match i c d && ci_eqb i p' s'
  | _, _ => false
  end.

(** ** Further vocabulary and declarations *)

(** [v == null]: [undefined] or [null], on which a property read throws. *)
Definition nullish (v : value) : bool :=
  match v with VUndefined | VNull => true | _ => false end.

(** [a.join(sep)] on an array of strings. *)
Fixpoint join (sep : string) (a : list string) : string :=
  match a with
  | [] => ""
  | [x] => x
  | x :: xs => x ++ sep ++ join sep xs
  end.

(** The string holds no occurrence of the character. *)
Definition no_sep (sep : ascii) (s : string) : bool :=
  forallb (fun c => negb (Ascii.eqb c sep)) (list_ascii_of_string s).

(** The string with its ASCII letters in upper case. *)
Fixpoint upcase (s : string) : string :=
  match s with
  | EmptyString => EmptyString
  | String c s' => String (canonicalize c) (upcase s')
  end.

(** The property names a compiled template can hold. *)
Definition templateKeys : list string :=
  ["parent"; "availableMemoryMb"; "runtime"; "timeout"; "entryPoint"; "function";
   "sourceArchiveUrl"; "serviceAccountEmail"; "environmentVariables"; "vpcConnector";
   "vpcConnectorEgressSettings"; "ingressSettings"; "maxInstances"; "labels";
   "httpsTrigger"; "eventTrigger"].

(** The entries [_.assign] copies from a labels value, [{}] standing in for
    a falsy one. *)
Definition labelEntries (labels : value) : obj :=
  own_entries (js_or labels (VObj [])).




(** Labels and an instance limit on the declaration. *)
Definition declLabelled : obj :=
  [("name", VStr "svc-dev-hello"); ("handler", VStr "hello"); ("events", httpEvents);
   ("labels", VObj [("team", VStr "billing"); ("tier", VStr "backend")]);
   ("maxInstances", VNum 5); ("timeout", VStr "120s")].

(** A provider configuration with labels and an instance limit of its own. *)
Definition providerLabelled : obj :=
  [("project", VStr "my-project"); ("region", VStr "europe-west1");
   ("deploymentBucketName", VStr "my-bucket");
   ("labels", VObj [("team", VStr "platform"); ("env", VStr "dev")]);
   ("maxInstances", VNum 100); ("timeout", VStr "30s")].


(** An environment that is array-like: its [length] is a length. *)
Definition declArrayLikeEnvironment : obj :=
  [("name", VStr "svc-dev-hello"); ("handler", VStr "hello"); ("events", httpEvents);
   ("environmentVariables", VObj [("length", VNum 0); ("A", VStr "b")])].

(** A service whose project is a number of 22 digits. *)
Definition serviceNumericProject : Serverless :=
  {| provider := [("project", VNum 1000000000000000000000);
                  ("deploymentBucketName", VStr "my-bucket")];
     resources := [];
     artifact := ".serverless/my-service.zip";
     artifactDirectoryName := VStr "serverless/my-service/dev/1";
     artifactFilePath := VUndefined;
     functions := [("hello", declHttp)];
     cli_log := [] |}.

(** * Properties *)

(** ** The derivative matcher decides the language of the pattern *)

Section RegexFacts.

Variable i : bool.

Lemma append_nil_inv (s1 s2 : string) :
  s1 ++ s2 = "" -> s1 = "" /\ s2 = "".
Proof. destruct s1; simpl; [auto | discriminate]. Qed.

Lemma append_cons_inv (s1 s2 : string) c s :
  s1 ++ s2 = String c s ->
  (s1 = "" /\ s2 = String c s) \/ (exists s1', s1 = String c s1' /\ s = s1' ++ s2).
Proof.
  destruct s1 as [|d s1']; simpl; intros H.
  - left; auto.
  - inversion H; subst. right; eauto.
Qed.

Lemma append_nil_r (s : string) : s ++ "" = s.
Proof. induction s; simpl; congruence. Qed.

Lemma append_assoc (s1 s2 s3 : string) : (s1 ++ s2) ++ s3 = s1 ++ (s2 ++ s3).
Proof. induction s1; simpl; congruence. Qed.

Lemma void_inv s : ~ re_match i RVoid s.
Proof. inversion 1. Qed.

Lemma eps_inv s : re_match i REps s -> s = "".
Proof. inversion 1; reflexivity. Qed.

Lemma char_inv c s :
  re_match i (RChar c) s -> exists d, s = String d "" /\ char_match i c d = true.
Proof. inversion 1; subst; eauto. Qed.

Lemma any_inv s : re_match i RAny s -> exists d, s = String d "".
Proof. inversion 1; subst; eauto. Qed.

Lemma seq_inv r1 r2 s :
  re_match i (RSeq r1 r2) s ->
  exists s1 s2, s = s1 ++ s2 /\ re_match i r1 s1 /\ re_match i r2 s2.
Proof. inversion 1; subst; eauto. Qed.

Lemma alt_inv r1 r2 s :
  re_match i (RAlt r1 r2) s -> re_match i r1 s \/ re_match i r2 s.
Proof. inversion 1; subst; auto. Qed.

Lemma seq_cons c r1 r2 s1 s2 :
  re_match i r1 (String c s1) -> re_match i r2 s2 ->
  re_match i (RSeq r1 r2) (String c (s1 ++ s2)).
Proof. intros H1 H2. apply (MSeq H1 H2). Qed.

Lemma seq_nil_l r1 r2 s :
  re_match i r1 "" -> re_match i r2 s -> re_match i (RSeq r1 r2) s.
Proof. intros H1 H2. apply (MSeq H1 H2). Qed.

Lemma nullable_spec r : nullable r = true <-> re_match i r "".
Proof.
  induction r; simpl; split; intros H; try discriminate.
  - destruct (void_inv H).
  - constructor.
  - reflexivity.
  - apply char_inv in H as (d & Hd & _); discriminate.
  - apply any_inv in H as (d & Hd); discriminate.
  - apply andb_true_iff in H as [H1 H2].
    apply seq_nil_l; [apply IHr1 | apply IHr2]; assumption.
  - apply seq_inv in H as (s1 & s2 & Heq & Ha & Hb).
    symmetry in Heq. apply append_nil_inv in Heq as [-> ->].
    apply andb_true_iff; split; [apply IHr1 | apply IHr2]; assumption.
  - apply orb_true_iff in H as [H|H]; [apply MAltL, IHr1 | apply MAltR, IHr2]; assumption.
  - apply orb_true_iff.
    apply alt_inv in H as [H|H]; [left; apply IHr1 | right; apply IHr2]; assumption.
  - constructor.
  - reflexivity.
Qed.

Lemma mkSeq_spec r1 r2 s : re_match i (mkSeq r1 r2) s <-> re_match i (RSeq r1 r2) s.
Proof.
  destruct r1; simpl; try tauto; split; intros H.
  - destruct (void_inv H).
  - apply seq_inv in H as (s1 & s2 & _ & Ha & _). destruct (void_inv Ha).
  - apply seq_nil_l; [constructor | assumption].
  - apply seq_inv in H as (s1 & s2 & -> & Ha & Hb).
    apply eps_inv in Ha; subst. assumption.
Qed.

Lemma mkAlt_spec r1 r2 s : re_match i (mkAlt r1 r2) s <-> re_match i (RAlt r1 r2) s.
Proof.
  split.
  - intros H.
    destruct r1; simpl in H; try solve [apply MAltR; assumption];
      destruct r2; simpl in H; try solve [apply MAltL; assumption]; assumption.
  - intros H. apply alt_inv in H as [H|H].
    + destruct r1; simpl; try solve [destruct (void_inv H)];
        destruct r2; simpl; try assumption; apply MAltL; assumption.
    + destruct r1; simpl; try assumption;
        destruct r2; simpl; try solve [destruct (void_inv H)]; apply MAltR; assumption.
Qed.

Lemma star_cons_inv r c s :
  re_match i (RStar r) (String c s) ->
  exists s1 s2, s = s1 ++ s2 /\ re_match i r (String c s1) /\ re_match i (RStar r) s2.
Proof.
  intros H. remember (RStar r) as r' eqn:Er. remember (String c s) as t eqn:Et.
  revert s Et.
  induction H as [| | | | | | |r0 s1 s2 H1 _ H2 IH2]; intros t Et; try discriminate.
  inversion Er; subst r0.
  apply append_cons_inv in Et as [[-> ->]|[s1' [-> ->]]].
  - apply IH2; reflexivity.
  - exists s1', s2; auto.
Qed.

Lemma deriv_spec c r : forall s, re_match i (deriv i c r) s <-> re_match i r (String c s).
Proof.
  induction r; intros s; simpl.
  - split; intros H; destruct (void_inv H).
  - split; intros H; [destruct (void_inv H) | apply eps_inv in H; discriminate].
  - destruct (char_match i c0 c) eqn:E; split; intros H.
    + apply eps_inv in H; subst. constructor; assumption.
    + apply char_inv in H as (d & Hd & _). inversion Hd; subst. constructor.
    + destruct (void_inv H).
    + apply char_inv in H as (d & Hd & Hm). inversion Hd; subst. congruence.
  - split; intros H.
    + apply eps_inv in H; subst. constructor.
    + apply any_inv in H as (d & Hd). inversion Hd; subst. constructor.
  - rewrite mkAlt_spec. split; intros H.
    + apply alt_inv in H as [H|H].
      * apply mkSeq_spec, seq_inv in H as (s1 & s2 & -> & Ha & Hb).
        apply seq_cons; [apply IHr1 |]; assumption.
      * destruct (nullable r1) eqn:N; [| destruct (void_inv H)].
        apply seq_nil_l; [apply nullable_spec | apply IHr2]; assumption.
    + apply seq_inv in H as (s1 & s2 & Heq & Ha & Hb).
      symmetry in Heq. apply append_cons_inv in Heq as [[-> ->]|[s1' [-> ->]]].
      * apply MAltR. apply nullable_spec in Ha. rewrite Ha. apply IHr2; assumption.
      * apply MAltL. apply mkSeq_spec. constructor; [apply IHr1 |]; assumption.
  - rewrite mkAlt_spec. split; intros H; apply alt_inv in H as [H|H].
    + apply MAltL, IHr1; assumption.
    + apply MAltR, IHr2; assumption.
    + apply MAltL, IHr1; assumption.
    + apply MAltR, IHr2; assumption.
  - rewrite mkSeq_spec. split; intros H.
    + apply seq_inv in H as (s1 & s2 & -> & Ha & Hb).
      change (String c (s1 ++ s2)) with (String c s1 ++ s2).
      constructor; [apply IHr |]; assumption.
    + apply star_cons_inv in H as (s1 & s2 & -> & Ha & Hb).
      constructor; [apply IHr |]; assumption.
Qed.

Lemma accepts_spec s : forall r, accepts i r s = true <-> re_match i r s.
Proof.
  induction s as [|c s IH]; intros r; simpl.
  - apply nullable_spec.
  - rewrite IH. apply deriv_spec.
Qed.

Lemma star_any_all s : re_match i (RStar RAny) s.
Proof.
  induction s as [|c s IH]; [constructor |].
  change (String c s) with (String c "" ++ s). constructor; [constructor | assumption].
Qed.

End RegexFacts.

(** [test] holds exactly when some substring is in the language. *)
Lemma regex_test_spec re s :
  regex_test re s = true <->
  exists pre m suf, s = pre ++ m ++ suf /\ re_match (ignoreCase re) (source re) m.
Proof.
  unfold regex_test. rewrite accepts_spec. split.
  - intros H. apply seq_inv in H as (pre & t & -> & _ & Hb).
    apply seq_inv in Hb as (m & suf & -> & Hm & _).
    exists pre, m, suf; auto.
  - intros (pre & m & suf & -> & Hm).
    constructor; [apply star_any_all |].
    constructor; [assumption | apply star_any_all].
Qed.

Lemma lit_spec i p : forall s, re_match i (lit p) s <-> ci_eqb i p s = true.
Proof.
  induction p as [|c p IH]; intros s; simpl; split; intros H.
  - apply eps_inv in H; subst; reflexivity.
  - destruct s; [constructor | discriminate].
  - apply seq_inv in H as (s1 & s2 & -> & Ha & Hb).
    apply char_inv in Ha as (d & -> & Hm). simpl. rewrite Hm. apply IH; assumption.
  - destruct s as [|d s']; [discriminate |].
    apply andb_true_iff in H as [Hm Hr].
    change (String d s') with (String d "" ++ s').
    constructor; [constructor; assumption | apply IH; assumption].
Qed.

(** The VPC pattern accepts exactly the strings that hold, in this order and
    up to the case of ASCII letters, [projects/], [/locations/] and
    [/connectors/], with anything before, between and after them. *)
Lemma vpcNamePattern_spec s :
  regex_test vpcNamePattern s = true <->
  exists pre p a l b c z,
    s = pre ++ p ++ a ++ l ++ b ++ c ++ z
    /\ ci_eqb true "projects/" p = true
    /\ ci_eqb true "/locations/" l = true
    /\ ci_eqb true "/connectors/" c = true.
Proof.
  rewrite regex_test_spec. cbn [vpcNamePattern source ignoreCase]. split.
  - intros (pre & m & suf & -> & H).
    apply seq_inv in H as (p & m1 & -> & Hp & H).
    apply seq_inv in H as (a & m2 & -> & _ & H).
    apply seq_inv in H as (l & m3 & -> & Hl & H).
    apply seq_inv in H as (b & m4 & -> & _ & H).
    apply seq_inv in H as (c & z & -> & Hc & _).
    exists pre, p, a, l, b, c, (z ++ suf).
    rewrite !append_assoc.
    repeat split; try reflexivity; apply lit_spec; assumption.
  - intros (pre & p & a & l & b & c & z & -> & Hp & Hl & Hc).
    exists pre, (p ++ a ++ l ++ b ++ c ++ z), "".
    split; [rewrite append_nil_r; reflexivity |].
    repeat (constructor; try apply star_any_all; try (apply lit_spec; assumption)).
Qed.

(** ** Objects as association lists *)

Lemma lookup_set_prop k k' v o :
  lookup k (set_prop k' v o) = if String.eqb k k' then Some v else lookup k o.
Proof.
  induction o as [|[k0 v0] o IH]; simpl.
  - reflexivity.
  - destruct (String.eqb k' k0) eqn:E0; simpl.
    + apply String.eqb_eq in E0; subst k0. destruct (String.eqb k k'); reflexivity.
    + rewrite IH. destruct (String.eqb k k0) eqn:E1; [| reflexivity].
      apply String.eqb_eq in E1; subst k0.
      rewrite String.eqb_sym, E0. reflexivity.
Qed.

Lemma lookup_delete_prop k k' o :
  lookup k (delete_prop k' o) = if String.eqb k k' then None else lookup k o.
Proof.
  induction o as [|[k0 v0] o IH]; simpl.
  - destruct (String.eqb k k'); reflexivity.
  - destruct (String.eqb k' k0) eqn:E0; simpl.
    + rewrite IH. apply String.eqb_eq in E0; subst k0.
      destruct (String.eqb k k'); reflexivity.
    + rewrite IH. destruct (String.eqb k k0) eqn:E1; [| reflexivity].
      apply String.eqb_eq in E1; subst k0.
      rewrite String.eqb_sym, E0. reflexivity.
Qed.

Lemma truthy_js_or a b : truthy (js_or a b) = truthy a || truthy b.
Proof. unfold js_or. destruct (truthy a) eqn:E; simpl; [assumption | reflexivity]. Qed.

Lemma js_or_truthy a b : truthy a = true -> js_or a b = a.
Proof. unfold js_or. intros ->. reflexivity. Qed.

Lemma js_or_falsy a b : truthy a = false -> js_or a b = b.
Proof. unfold js_or. intros ->. reflexivity. Qed.

Lemma lookup_app k (o1 o2 : obj) :
  lookup k (o1 ++ o2)%list =
  match lookup k o1 with Some v => Some v | None => lookup k o2 end.
Proof.
  induction o1 as [|[k0 v0] o1 IH]; simpl; [reflexivity |].
  destruct (String.eqb k k0); [reflexivity | apply IH].
Qed.

Lemma lookup_optional k b k' v :
  lookup k (optional b k' v) = if String.eqb k k' && b then Some v else None.
Proof. destruct b; simpl; destruct (String.eqb k k'); reflexivity. Qed.

Lemma js_or_null_truthy a : truthy (js_or a VNull) = truthy a.
Proof. rewrite truthy_js_or. apply orb_false_r. Qed.

Lemma js_or_assoc a b c : js_or (js_or a b) c = js_or a (js_or b c).
Proof. unfold js_or. destruct (truthy a) eqn:E; [rewrite E |]; reflexivity. Qed.

(** ** The overlay, statement by statement *)

Section OverlayFacts.

Variables (ext : Collaborators) (provider : obj) (afp pn : value) (f : obj).

Ltac run_statements :=
  cbn -[js_or truthy size toString String.append own_entries
        getRuntime getConfiguredEnvironment].

(** The properties lines 29-84 leave behind, in enumeration order. *)
Lemma overlay_properties :
  properties (overlayTemplate ext provider afp pn f) =
  ([("parent", VStr ("projects/" ++ toString pn ++ "/locations/"
                       ++ toString (get provider "region")));
    ("availableMemoryMb",
     js_or (js_or (get f "memorySize") (get provider "memorySize")) (VNum 256));
    ("runtime", getRuntime ext provider f);
    ("timeout", js_or (js_or (get f "timeout") (get provider "timeout")) (VStr "60s"));
    ("entryPoint", get f "handler");
    ("function", get f "name");
    ("sourceArchiveUrl",
     VStr ("gs://" ++ toString (get provider "deploymentBucketName")
             ++ "/" ++ toString afp))]
   ++ optional (truthy (js_or (js_or (get f "serviceAccountEmail")
                                     (get provider "serviceAccountEmail")) VNull))
        "serviceAccountEmail"
        (js_or (js_or (get f "serviceAccountEmail")
                      (get provider "serviceAccountEmail")) VNull)
   ++ optional (negb (Nat.eqb (size (getConfiguredEnvironment ext provider f)) 0))
        "environmentVariables" (getConfiguredEnvironment ext provider f)
   ++ optional (truthy (get f "vpc")) "vpcConnector"
        (js_or (get f "vpc") (get provider "vpc"))
   ++ optional (truthy (get f "egress")) "vpcConnectorEgressSettings"
        (js_or (get f "egress") (get provider "egress"))
   ++ optional (truthy (get f "ingress")) "ingressSettings"
        (js_or (get f "ingress") (get provider "ingress"))
   ++ optional (truthy (get f "maxInstances")) "maxInstances" (get f "maxInstances")
   ++ [("labels",
        VObj (assign (assign [] (own_entries (js_or (get provider "labels") (VObj []))))
                     (own_entries (js_or (get f "labels") (VObj [])))))])%list.
Proof.
  unfold overlayTemplate.
  destruct (truthy (get f "vpc")), (truthy (get f "egress")),
    (truthy (get f "ingress")), (truthy (get f "maxInstances")).
  all: run_statements.
  all: destruct (truthy (js_or (js_or (get f "serviceAccountEmail")
                                      (get provider "serviceAccountEmail")) VNull)).
  all: run_statements.
  all: destruct (Nat.eqb (size (getConfiguredEnvironment ext provider f)) 0).
  all: reflexivity.
Qed.

(** Reads one property off the overlay. *)
Ltac read_overlay :=
  rewrite overlay_properties; rewrite ?lookup_app, ?lookup_optional;
  cbn [lookup String.eqb Ascii.eqb Bool.eqb andb].

Lemma overlay_availableMemoryMb :
  lookup "availableMemoryMb" (properties (overlayTemplate ext provider afp pn f)) =
  Some (js_or (js_or (get f "memorySize") (get provider "memorySize")) (VNum 256)).
Proof. read_overlay. reflexivity. Qed.

Lemma overlay_timeout :
  lookup "timeout" (properties (overlayTemplate ext provider afp pn f)) =
  Some (js_or (js_or (get f "timeout") (get provider "timeout")) (VStr "60s")).
Proof. read_overlay. reflexivity. Qed.

Lemma overlay_serviceAccountEmail :
  lookup "serviceAccountEmail" (properties (overlayTemplate ext provider afp pn f)) =
  if truthy (js_or (get f "serviceAccountEmail") (get provider "serviceAccountEmail"))
  then Some (js_or (get f "serviceAccountEmail") (get provider "serviceAccountEmail"))
  else None.
Proof.
  read_overlay. rewrite js_or_null_truthy.
  destruct (truthy (js_or _ _)) eqn:E; [| reflexivity].
  rewrite (js_or_truthy _ _ E). reflexivity.
Qed.

Lemma overlay_environmentVariables :
  lookup "environmentVariables" (properties (overlayTemplate ext provider afp pn f)) =
  if Nat.eqb (size (getConfiguredEnvironment ext provider f)) 0
  then None else Some (getConfiguredEnvironment ext provider f).
Proof. read_overlay. destruct (Nat.eqb _ 0); reflexivity. Qed.

Lemma overlay_vpcConnector :
  lookup "vpcConnector" (properties (overlayTemplate ext provider afp pn f)) =
  if truthy (get f "vpc") then Some (get f "vpc") else None.
Proof.
  read_overlay. destruct (truthy (get f "vpc")) eqn:E; [| reflexivity].
  rewrite (js_or_truthy _ _ E). reflexivity.
Qed.

Lemma overlay_vpcConnectorEgressSettings :
  lookup "vpcConnectorEgressSettings" (properties (overlayTemplate ext provider afp pn f)) =
  if truthy (get f "egress") then Some (get f "egress") else None.
Proof.
  read_overlay. destruct (truthy (get f "egress")) eqn:E; [| reflexivity].
  rewrite (js_or_truthy _ _ E). reflexivity.
Qed.

Lemma overlay_ingressSettings :
  lookup "ingressSettings" (properties (overlayTemplate ext provider afp pn f)) =
  if truthy (get f "ingress") then Some (get f "ingress") else None.
Proof.
  read_overlay. destruct (truthy (get f "ingress")) eqn:E; [| reflexivity].
  rewrite (js_or_truthy _ _ E). reflexivity.
Qed.

Lemma overlay_no_trigger :
  lookup "httpsTrigger" (properties (overlayTemplate ext provider afp pn f)) = None
  /\ lookup "eventTrigger" (properties (overlayTemplate ext provider afp pn f)) = None.
Proof. split; read_overlay; reflexivity. Qed.

End OverlayFacts.

(** ** The trigger *)

Lemma strict_eq_str_true v s : strict_eq_str v s = true -> v = VStr s.
Proof.
  destruct v; simpl; try discriminate. intros H. apply String.eqb_eq in H. congruence.
Qed.

Lemma compileTrigger_inv f p p' :
  compileTrigger f p = Ok p' ->
  exists ty, eventTypeOf f = Ok ty /\
    ((strict_eq_str ty "http" = true /\ strict_eq_str ty "event" = false /\
      exists ev0 url,
        firstEvent f = Ok ev0 /\ get_member ev0 "http" = Ok url /\
        p' = set_prop "httpsTrigger" (VObj [("url", url)]) p)
     \/ (strict_eq_str ty "http" = false /\ strict_eq_str ty "event" = true /\
         exists t pa r,
           eventField f "eventType" = Ok t /\ eventField f "path" = Ok pa /\
           eventField f "resource" = Ok r /\
           p' = set_prop "eventTrigger"
                  (VObj ((("eventType", t) :: optional (truthy pa) "path" pa)
                           ++ [("resource", r)])%list) p)
     \/ (strict_eq_str ty "http" = false /\ strict_eq_str ty "event" = false /\ p' = p)).
Proof.
  unfold compileTrigger.
  destruct (eventTypeOf f) as [ty|e]; simpl; [| discriminate].
  intros H. exists ty. split; [reflexivity |].
  destruct (strict_eq_str ty "http") eqn:Eh.
  - left. apply strict_eq_str_true in Eh. subst ty. simpl in H.
    repeat split; try reflexivity.
    destruct (firstEvent f) as [ev0|] eqn:E0; simpl in H; [| discriminate].
    destruct (get_member ev0 "http") as [url|] eqn:E1; simpl in H; [| discriminate].
    inversion H. exists ev0, url. auto.
  - simpl in H. destruct (strict_eq_str ty "event") eqn:Ee.
    + right; left. repeat split; try reflexivity.
      destruct (eventField f "eventType") as [t|] eqn:E1; simpl in H; [| discriminate].
      destruct (eventField f "path") as [pa|] eqn:E2; simpl in H; [| discriminate].
      destruct (eventField f "resource") as [r|] eqn:E3; simpl in H; [| discriminate].
      exists t, pa, r. repeat split; try reflexivity.
      inversion H. destruct (truthy pa); reflexivity.
    + right; right. inversion H. auto.
Qed.

Lemma compileTrigger_other_keys f p p' k :
  compileTrigger f p = Ok p' ->
  String.eqb k "httpsTrigger" = false -> String.eqb k "eventTrigger" = false ->
  lookup k p' = lookup k p.
Proof.
  intros H K1 K2. apply compileTrigger_inv in H as (ty & _ & H).
  destruct H as [(_ & _ & ev0 & url & _ & _ & ->)
                |[(_ & _ & t & pa & r & _ & _ & _ & ->)|(_ & _ & ->)]];
    rewrite ?lookup_set_prop, ?K1, ?K2; reflexivity.
Qed.


(** ** The callback on one declaration *)

Section CompileFunctionFacts.

Variables (ext : Collaborators) (provider : obj) (afp pn : value).

Lemma compileFunction_Ok_inv f name tpl :
  compileFunction ext provider afp pn f name = Ok tpl ->
  truthy (get f "handler") = true
  /\ validateEventsProperty ext f name = Ok tt
  /\ validateVpcConnectorProperty f name = Ok tt
  /\ exists p',
       compileTrigger f (properties (overlayTemplate ext provider afp pn f)) = Ok p'
       /\ tpl = with_properties (overlayTemplate ext provider afp pn f) p'.
Proof.
  unfold compileFunction, validateHandlerProperty.
  destruct (truthy (get f "handler")); cbn [rbind negb]; [| discriminate].
  destruct (validateEventsProperty ext f name) as [[]|]; cbn [rbind]; [| discriminate].
  destruct (validateVpcConnectorProperty f name) as [[]|]; cbn [rbind]; [| discriminate].
  destruct (compileTrigger f _) as [p'|]; cbn [rbind]; [| discriminate].
  intros H; inversion H. eauto 6.
Qed.


(** A property the trigger does not touch is in the template as the overlay
    left it. *)
Lemma compileFunction_lookup f name tpl k :
  compileFunction ext provider afp pn f name = Ok tpl ->
  String.eqb k "httpsTrigger" = false -> String.eqb k "eventTrigger" = false ->
  lookup k (properties tpl) = lookup k (properties (overlayTemplate ext provider afp pn f)).
Proof.
  intros H K1 K2. apply compileFunction_Ok_inv in H as (_ & _ & _ & p' & Ht & ->).
  cbn [properties with_properties]. eapply compileTrigger_other_keys; eassumption.
Qed.

End CompileFunctionFacts.

(** ** Triggers *)

Lemma trigger_keys_of_compiled ext provider afp pn f name tpl :
  compileFunction ext provider afp pn f name = Ok tpl ->
  exists eventType,
    eventTypeOf f = Ok eventType
    /\ has_key "httpsTrigger" (properties tpl) = strict_eq_str eventType "http"
    /\ has_key "eventTrigger" (properties tpl) = strict_eq_str eventType "event"
    /\ strict_eq_str eventType "http" && strict_eq_str eventType "event" = false.
Proof.
  intros H. apply compileFunction_Ok_inv in H as (_ & _ & _ & p' & Ht & ->).
  cbn [properties with_properties].
  destruct (overlay_no_trigger ext provider afp pn f) as [Nh Ne].
  apply compileTrigger_inv in Ht as (ty & Hty & H). exists ty. split; [assumption |].
  unfold has_key.
  destruct H as [(-> & -> & ev0 & url & _ & _ & ->)
                |[(-> & -> & t & pa & r & _ & _ & _ & ->)|(-> & -> & ->)]];
    rewrite ?lookup_set_prop; cbn [String.eqb Ascii.eqb Bool.eqb];
    rewrite ?Nh, ?Ne; repeat split; reflexivity.
Qed.

(** C1, as the code has it: in every compiled template the key [httpsTrigger]
    is present exactly when the first key of the first event is [http], and
    the key [eventTrigger] exactly when it is [event]; so exactly one of the
    two is present when that key is [http] or [event], and neither when it is
    anything else.  Nothing but that key decides: two compiled declarations
    with the same first key agree on both trigger keys, whatever else they,
    their providers and the collaborators hold. *)
Theorem trigger_keys_follow_first_event_key ext provider afp pn f name tpl :
  compileFunction ext provider afp pn f name = Ok tpl ->
  (exists eventType,
     eventTypeOf f = Ok eventType
     /\ has_key "httpsTrigger" (properties tpl) = strict_eq_str eventType "http"
     /\ has_key "eventTrigger" (properties tpl) = strict_eq_str eventType "event"
     /\ xorb (has_key "httpsTrigger" (properties tpl))
             (has_key "eventTrigger" (properties tpl))
        = strict_eq_str eventType "http" || strict_eq_str eventType "event")
  /\ (forall ext' provider' afp' pn' f' name' tpl',
        compileFunction ext' provider' afp' pn' f' name' = Ok tpl' ->
        eventTypeOf f' = eventTypeOf f ->
        has_key "httpsTrigger" (properties tpl') = has_key "httpsTrigger" (properties tpl)
        /\ has_key "eventTrigger" (properties tpl')
           = has_key "eventTrigger" (properties tpl)).
Proof.
  intros H.
  destruct (trigger_keys_of_compiled _ _ _ _ _ _ H) as (ty & Hty & Hh & He & Hx).
  split.
  - exists ty. rewrite Hh, He. repeat split; try assumption.
    destruct (strict_eq_str ty "http"), (strict_eq_str ty "event");
      try reflexivity; discriminate.
  - intros ext' provider' afp' pn' f' name' tpl' H' Heq.
    destruct (trigger_keys_of_compiled _ _ _ _ _ _ H') as (ty' & Hty' & Hh' & He' & _).
    rewrite Heq, Hty in Hty'. inversion Hty'; subst ty'.
    rewrite Hh, He, Hh', He'. split; reflexivity.
Qed.

Lemma trigger_keys_follow_first_event_key_witness :
  exists tpl,
    compileSample plainProvider declEvent = Ok tpl
    /\ has_key "httpsTrigger" (properties tpl) = false
    /\ has_key "eventTrigger" (properties tpl) = true.
Proof.
  eexists. split; [vm_compute; reflexivity |].
  destruct (trigger_keys_follow_first_event_key specCollaborators plainProvider
              sampleArtifactFilePath (VStr "my-project") declEvent "hello" eq_refl)
    as ((ty & Hty & Hh & He & _) & _).
  vm_compute in Hty. inversion Hty; subst ty.
  split; [exact Hh | exact He].
Defined.

(** C1 as stated fails: a declaration whose first event has the key [htpp]
    compiles, and its template has neither trigger key. *)
Lemma unknown_event_kind_yields_no_trigger :
  exists tpl,
    compileSample plainProvider declUnknownEvent = Ok tpl /\ ~ exactlyOneTrigger tpl.
Proof.
  eexists. split; [vm_compute; reflexivity |].
  unfold exactlyOneTrigger. vm_compute. discriminate.
Qed.

(** ** Networking fields *)

(** C4: the three networking keys are in the template exactly when the
    declaration's own [vpc], [egress], [ingress] is truthy, whatever the
    provider configuration holds. *)
Theorem networking_keys_follow_declaration ext provider afp pn f name tpl :
  compileFunction ext provider afp pn f name = Ok tpl ->
  has_key "vpcConnector" (properties tpl) = truthy (get f "vpc")
  /\ has_key "vpcConnectorEgressSettings" (properties tpl) = truthy (get f "egress")
  /\ has_key "ingressSettings" (properties tpl) = truthy (get f "ingress").
Proof.
  intros H. unfold has_key.
  rewrite !(compileFunction_lookup _ _ _ _ _ _ _ H) by reflexivity.
  rewrite overlay_vpcConnector, overlay_vpcConnectorEgressSettings, overlay_ingressSettings.
  destruct (truthy (get f "vpc")), (truthy (get f "egress")), (truthy (get f "ingress"));
    auto.
Qed.

Lemma networking_keys_follow_declaration_witness :
  exists tpl,
    compileSample providerWithDefaults declHttp = Ok tpl
    /\ truthy (get providerWithDefaults "vpc") = true
    /\ has_key "vpcConnector" (properties tpl) = false
    /\ has_key "vpcConnectorEgressSettings" (properties tpl) = false
    /\ has_key "ingressSettings" (properties tpl) = false.
Proof.
  eexists. split; [vm_compute; reflexivity |].
  split; [reflexivity |].
  exact (networking_keys_follow_declaration specCollaborators providerWithDefaults
           sampleArtifactFilePath (VStr "my-project") declHttp "hello" eq_refl).
Defined.

(** ** Field precedence *)

(** C6: [availableMemoryMb] is the declaration's [memorySize] if that is
    truthy, else the provider's [memorySize] if that is truthy, else 256. *)
Theorem availableMemoryMb_precedence ext provider afp pn f name tpl :
  compileFunction ext provider afp pn f name = Ok tpl ->
  lookup "availableMemoryMb" (properties tpl) =
  Some (if truthy (get f "memorySize") then get f "memorySize"
        else if truthy (get provider "memorySize") then get provider "memorySize"
        else VNum 256).
Proof.
  intros H. rewrite (compileFunction_lookup _ _ _ _ _ _ _ H) by reflexivity.
  rewrite overlay_availableMemoryMb, js_or_assoc. reflexivity.
Qed.

Lemma availableMemoryMb_precedence_witness :
  exists tpl,
    compileSample providerWithDefaults (declMemoryTimeout (VNum 512) VUndefined) = Ok tpl
    /\ get providerWithDefaults "memorySize" = VNum 128
    /\ lookup "availableMemoryMb" (properties tpl) = Some (VNum 512).
Proof.
  eexists. split; [vm_compute; reflexivity |].
  split; [reflexivity |].
  exact (availableMemoryMb_precedence specCollaborators providerWithDefaults
           sampleArtifactFilePath (VStr "my-project")
           (declMemoryTimeout (VNum 512) VUndefined) "hello" eq_refl).
Defined.

(** With [memorySize] set neither on the declaration nor on the provider the
    template holds 256. *)
Example availableMemoryMb_default :
  exists tpl,
    compileSample plainProvider declHttp = Ok tpl
    /\ lookup "availableMemoryMb" (properties tpl) = Some (VNum 256).
Proof. eexists. split; vm_compute; reflexivity. Qed.

(** C10: a declared [memorySize] or [timeout] that is falsy counts as absent:
    the template holds the provider's value if that is truthy and the built-in
    fallback otherwise, and what it holds is never falsy. *)
Theorem falsy_declared_value_is_ignored ext provider afp pn f name tpl :
  compileFunction ext provider afp pn f name = Ok tpl ->
  (truthy (get f "memorySize") = false ->
   lookup "availableMemoryMb" (properties tpl) =
   Some (if truthy (get provider "memorySize") then get provider "memorySize"
         else VNum 256))
  /\ (truthy (get f "timeout") = false ->
      lookup "timeout" (properties tpl) =
      Some (if truthy (get provider "timeout") then get provider "timeout"
            else VStr "60s"))
  /\ (forall v, lookup "availableMemoryMb" (properties tpl) = Some v -> truthy v = true)
  /\ (forall v, lookup "timeout" (properties tpl) = Some v -> truthy v = true).
Proof.
  intros H.
  rewrite !(compileFunction_lookup _ _ _ _ _ _ _ H) by reflexivity.
  rewrite overlay_availableMemoryMb, overlay_timeout.
  repeat split.
  - intros E. rewrite js_or_assoc, (js_or_falsy _ _ E). reflexivity.
  - intros E. rewrite js_or_assoc, (js_or_falsy _ _ E). reflexivity.
  - intros v E. inversion E. rewrite !truthy_js_or. apply orb_true_r.
  - intros v E. inversion E. rewrite !truthy_js_or. apply orb_true_r.
Qed.

Lemma falsy_declared_value_is_ignored_witness :
  exists tpl,
    compileSample providerWithDefaults (declMemoryTimeout (VNum 0) (VStr "")) = Ok tpl
    /\ lookup "availableMemoryMb" (properties tpl) = Some (VNum 128)
    /\ lookup "timeout" (properties tpl) = Some (VStr "30s").
Proof.
  eexists. split; [vm_compute; reflexivity |].
  destruct (falsy_declared_value_is_ignored specCollaborators providerWithDefaults
              sampleArtifactFilePath (VStr "my-project")
              (declMemoryTimeout (VNum 0) (VStr "")) "hello" eq_refl)
    as (Hm & Ht & _).
  split; [exact (Hm eq_refl) | exact (Ht eq_refl)].
Defined.

(** With falsy values on the declaration and nothing on the provider the
    template holds the built-in fallbacks. *)
Example falsy_declared_value_fallback :
  exists tpl,
    compileSample plainProvider (declMemoryTimeout (VNum 0) (VStr "")) = Ok tpl
    /\ lookup "availableMemoryMb" (properties tpl) = Some (VNum 256)
    /\ lookup "timeout" (properties tpl) = Some (VStr "60s").
Proof. eexists. repeat split; vm_compute; reflexivity. Qed.

(** ** Omitted keys *)

(** C7: [serviceAccountEmail] is in the template only with the truthy value
    the declaration-then-provider merge gives, and [environmentVariables]
    only with the non-empty environment the provider resolves; otherwise the
    key is absent.  A present key never holds [null] or an empty value. *)
Theorem empty_values_are_omitted ext provider afp pn f name tpl :
  compileFunction ext provider afp pn f name = Ok tpl ->
  let email := js_or (get f "serviceAccountEmail") (get provider "serviceAccountEmail") in
  let environment := getConfiguredEnvironment ext provider f in
  lookup "serviceAccountEmail" (properties tpl)
  = (if truthy email then Some email else None)
  /\ lookup "environmentVariables" (properties tpl)
     = (if Nat.eqb (size environment) 0 then None else Some environment)
  /\ (forall v, lookup "serviceAccountEmail" (properties tpl) = Some v ->
                truthy v = true /\ v <> VNull /\ v <> VStr "")
  /\ (forall v, lookup "environmentVariables" (properties tpl) = Some v ->
                size v <> 0 /\ v <> VNull /\ v <> VObj [])
  /\ (lookup "serviceAccountEmail" f = None ->
      lookup "serviceAccountEmail" provider = None ->
      has_key "serviceAccountEmail" (properties tpl) = false).
Proof.
  intros H email environment. unfold has_key.
  rewrite !(compileFunction_lookup _ _ _ _ _ _ _ H) by reflexivity.
  rewrite overlay_serviceAccountEmail, overlay_environmentVariables.
  fold email environment.
  repeat split.
  - destruct (truthy email) eqn:E; [| discriminate]. congruence.
  - destruct (truthy email) eqn:E; [| discriminate].
    intros ->. inversion H0. rewrite H2 in E. discriminate.
  - destruct (truthy email) eqn:E; [| discriminate].
    intros ->. inversion H0. rewrite H2 in E. discriminate.
  - destruct (Nat.eqb (size environment) 0) eqn:E; [discriminate |].
    inversion H0; subst v. apply Nat.eqb_neq; assumption.
  - destruct (Nat.eqb (size environment) 0) eqn:E; [discriminate |].
    intros ->. inversion H0. rewrite H2 in E. discriminate.
  - destruct (Nat.eqb (size environment) 0) eqn:E; [discriminate |].
    intros ->. inversion H0. rewrite H2 in E. discriminate.
  - intros Hf Hp. unfold email, get. rewrite Hf, Hp. reflexivity.
Qed.

Lemma empty_values_are_omitted_witness :
  exists tpl,
    compileSample plainProvider declHttp = Ok tpl
    /\ lookup "serviceAccountEmail" (properties tpl) = None
    /\ lookup "environmentVariables" (properties tpl) = None.
Proof.
  eexists. split; [vm_compute; reflexivity |].
  destruct (empty_values_are_omitted specCollaborators plainProvider
              sampleArtifactFilePath (VStr "my-project") declHttp "hello" eq_refl)
    as (He & Hv & _).
  split; [exact He | exact Hv].
Defined.

(** An environment that [_.size] takes for an empty array-like is dropped,
    own keys or not. *)
Example array_like_environment_is_dropped :
  size (VObj [("length", VNum 0); ("A", VStr "b")]) = 0
  /\ exists tpl,
       compileSample plainProvider declArrayLikeEnvironment = Ok tpl
       /\ has_key "environmentVariables" (properties tpl) = false.
Proof. split; [reflexivity |]. eexists. split; vm_compute; reflexivity. Qed.

(** ** The VPC connector name *)

Lemma validateVpcConnectorProperty_string f name s :
  get f "vpc" = VStr s -> s <> "" ->
  validateVpcConnectorProperty f name =
  if regex_test vpcNamePattern s then Ok tt else Throw (Error (invalidVpcMessage name)).
Proof.
  intros E Hs. unfold validateVpcConnectorProperty. rewrite E.
  cbn [truthy is_string toString].
  destruct (String.eqb s "") eqn:Es; [apply String.eqb_eq in Es; contradiction |].
  cbn [negb andb]. destruct (regex_test vpcNamePattern s); reflexivity.
Qed.




(** ** Egress and ingress *)

Lemma includes_In l s : includes l (VStr s) = true <-> In s l.
Proof.
  unfold includes. rewrite existsb_exists. cbn [strict_eq_str]. split.
  - intros (x & Hx & E). apply String.eqb_eq in E. subst; assumption.
  - intros H. exists s. split; [assumption | apply String.eqb_refl].
Qed.



(** ** The trigger mapping *)

Lemma eventTypeOf_first_key f k v rest :
  firstEvent f = Ok (VObj ((k, v) :: rest)) -> eventTypeOf f = Ok (VStr k).
Proof. intros E. unfold eventTypeOf. rewrite E. reflexivity. Qed.

Lemma eventField_first_key f e rest k :
  firstEvent f = Ok (VObj (("event", e) :: rest)) -> eventField f k = get_member e k.
Proof. intros E. unfold eventField. rewrite E. reflexivity. Qed.

(** C8, as the code has it: when the first key of the first event is [http]
    with value [v], the template holds [httpsTrigger = {url: v}] and no
    [eventTrigger]; when it is [event], the template holds an [eventTrigger]
    with that event's [eventType] and [resource], and with its [path] exactly
    when that path is truthy, and no [httpsTrigger]. *)
Theorem trigger_mapping ext provider afp pn f name tpl :
  compileFunction ext provider afp pn f name = Ok tpl ->
  (forall v rest,
     firstEvent f = Ok (VObj (("http", v) :: rest)) ->
     lookup "httpsTrigger" (properties tpl) = Some (VObj [("url", v)])
     /\ has_key "eventTrigger" (properties tpl) = false)
  /\ (forall e rest,
        firstEvent f = Ok (VObj (("event", e) :: rest)) ->
        exists eventType path resource,
          get_member e "eventType" = Ok eventType
          /\ get_member e "path" = Ok path
          /\ get_member e "resource" = Ok resource
          /\ lookup "eventTrigger" (properties tpl)
             = Some (VObj ((("eventType", eventType) :: optional (truthy path) "path" path)
                             ++ [("resource", resource)])%list)
          /\ has_key "httpsTrigger" (properties tpl) = false).
Proof.
  intros H. apply compileFunction_Ok_inv in H as (_ & _ & _ & p' & Ht & ->).
  cbn [properties with_properties].
  destruct (overlay_no_trigger ext provider afp pn f) as [Nh Ne].
  apply compileTrigger_inv in Ht as (ty & Hty & H).
  split.
  - intros v rest E.
    rewrite (eventTypeOf_first_key _ E) in Hty. inversion Hty; subst ty.
    destruct H as [(_ & _ & ev0 & url & E0 & E1 & ->)
                  |[(Hh & _)|(Hh & _)]]; try discriminate.
    rewrite E in E0. inversion E0; subst ev0.
    cbn in E1. inversion E1; subst url.
    unfold has_key. rewrite !lookup_set_prop. cbn [String.eqb Ascii.eqb Bool.eqb].
    rewrite Ne. split; reflexivity.
  - intros e rest E.
    rewrite (eventTypeOf_first_key _ E) in Hty. inversion Hty; subst ty.
    destruct H as [(Hh & _)
                  |[(_ & _ & t & pa & r & E1 & E2 & E3 & ->)|(_ & He & _)]];
      try discriminate.
    erewrite eventField_first_key in E1 by exact E.
    erewrite eventField_first_key in E2 by exact E.
    erewrite eventField_first_key in E3 by exact E.
    exists t, pa, r. repeat split; try assumption.
    + rewrite lookup_set_prop. reflexivity.
    + unfold has_key. rewrite lookup_set_prop. cbn [String.eqb Ascii.eqb Bool.eqb].
      rewrite Nh. reflexivity.
Qed.

Lemma trigger_mapping_witness :
  (exists tpl,
     compileSample plainProvider declHttp = Ok tpl
     /\ lookup "httpsTrigger" (properties tpl)
        = Some (VObj [("url", VStr "https://example.com")])
     /\ has_key "eventTrigger" (properties tpl) = false)
  /\ (exists tpl,
        compileSample plainProvider declEvent = Ok tpl
        /\ lookup "eventTrigger" (properties tpl)
           = Some (VObj [("eventType", VStr "google.storage.object.finalize");
                         ("resource", VStr "my-bucket")])
        /\ has_key "httpsTrigger" (properties tpl) = false).
Proof.
  split.
  - eexists. split; [vm_compute; reflexivity |].
    destruct (trigger_mapping specCollaborators plainProvider sampleArtifactFilePath
                (VStr "my-project") declHttp "hello" eq_refl) as [Hh _].
    exact (Hh _ _ eq_refl).
  - eexists. split; [vm_compute; reflexivity |].
    destruct (trigger_mapping specCollaborators plainProvider sampleArtifactFilePath
                (VStr "my-project") declEvent "hello" eq_refl) as [_ He].
    destruct (He _ _ eq_refl) as (t & pa & r & E1 & E2 & E3 & L & N).
    vm_compute in E1, E2, E3. inversion E1; inversion E2; inversion E3; subst.
    split; [exact L | exact N].
Defined.

(** C8 as stated fails: an event whose [path] is present but empty compiles
    to an [eventTrigger] without a [path] key. *)
Lemma empty_path_is_dropped :
  exists tpl event eventTrigger,
    compileSample plainProvider declEventEmptyPath = Ok tpl
    /\ firstEvent declEventEmptyPath = Ok (VObj [("event", VObj event)])
    /\ has_key "path" event = true
    /\ lookup "eventTrigger" (properties tpl) = Some (VObj eventTrigger)
    /\ has_key "path" eventTrigger = false.
Proof.
  do 3 eexists. split; [vm_compute; reflexivity |].
  split; [vm_compute; reflexivity |].
  split; [vm_compute; reflexivity |].
  split; vm_compute; reflexivity.
Qed.

(** ** The loop over the declarations *)

Section LoopFacts.

Variable ext : Collaborators.

Lemma compileFunctions_unfold this :
  compileFunctions ext this =
  forEach (getAllFunctions this) (compileCallback ext (get (provider this) "project"))
    (withDefaults this).
Proof. reflexivity. Qed.


Lemma compileCallback_run pn n f st :
  find_function n (functions st) = Some f ->
  compileCallback ext pn n st =
  match compileFunction ext (provider st) (artifactFilePath st) pn f n with
  | Ok t => (Ok tt, compiled st [n] [t])
  | Throw e => (Throw e, compiled st [n] [])
  end.
Proof.
  intros E. unfold compileCallback, bind, getFunction, modify, read, lift.
  rewrite E. cbn [provider artifactFilePath push_log].
  destruct (compileFunction ext (provider st) (artifactFilePath st) pn f n);
    unfold compiled, push_resource, push_log; cbn [map provider resources artifact
      artifactDirectoryName artifactFilePath functions cli_log];
    rewrite ?app_nil_r; reflexivity.
Qed.

Lemma compiled_compiled st ns1 ts1 ns2 ts2 :
  compiled (compiled st ns1 ts1) ns2 ts2 = compiled st (ns1 ++ ns2) (ts1 ++ ts2).
Proof.
  unfold compiled. cbn [provider resources artifact artifactDirectoryName
    artifactFilePath functions cli_log].
  rewrite !map_app, !app_assoc. reflexivity.
Qed.



End LoopFacts.

(** ** Ordering and failure *)







Lemma falsy_handler f :
  lookup "handler" f = None \/ get f "handler" = VStr "" ->
  truthy (get f "handler") = false.
Proof. unfold get. intros [-> | ->]; reflexivity. Qed.



(** * Further properties of the compiler *)

(** ** More of the overlay *)

Section MoreOverlayFacts.

Variables (ext : Collaborators) (provider : obj) (afp pn : value) (f : obj).

Ltac read_overlay :=
  rewrite overlay_properties; rewrite ?lookup_app, ?lookup_optional;
  cbn [lookup String.eqb Ascii.eqb Bool.eqb andb].

Lemma overlay_maxInstances :
  lookup "maxInstances" (properties (overlayTemplate ext provider afp pn f)) =
  if truthy (get f "maxInstances") then Some (get f "maxInstances") else None.
Proof. read_overlay. destruct (truthy (get f "maxInstances")); reflexivity. Qed.

Lemma overlay_labels :
  lookup "labels" (properties (overlayTemplate ext provider afp pn f)) =
  Some (VObj (assign (assign [] (labelEntries (get provider "labels")))
                     (labelEntries (get f "labels")))).
Proof. read_overlay. reflexivity. Qed.

Lemma overlay_fixed_fields :
  lookup "parent" (properties (overlayTemplate ext provider afp pn f))
  = Some (VStr ("projects/" ++ toString pn ++ "/locations/"
                  ++ toString (get provider "region")))
  /\ lookup "runtime" (properties (overlayTemplate ext provider afp pn f))
     = Some (getRuntime ext provider f)
  /\ lookup "entryPoint" (properties (overlayTemplate ext provider afp pn f))
     = Some (get f "handler")
  /\ lookup "function" (properties (overlayTemplate ext provider afp pn f))
     = Some (get f "name")
  /\ lookup "sourceArchiveUrl" (properties (overlayTemplate ext provider afp pn f))
     = Some (VStr ("gs://" ++ toString (get provider "deploymentBucketName")
                     ++ "/" ++ toString afp)).
Proof. repeat split; read_overlay; reflexivity. Qed.

Lemma overlay_type_name :
  type (overlayTemplate ext provider afp pn f)
  = "gcp-types/cloudfunctions-v1:projects.locations.functions"
  /\ name (overlayTemplate ext provider afp pn f) = get f "name".
Proof. split; reflexivity. Qed.

End MoreOverlayFacts.

(** ** Facts about [_.assign] and own keys *)

Lemma lookup_None_notin k (o : obj) : ~ In k (map fst o) -> lookup k o = None.
Proof.
  induction o as [|[k0 v0] o IH]; simpl; intros H; [reflexivity |].
  destruct (String.eqb k k0) eqn:E.
  - apply String.eqb_eq in E. subst. exfalso. apply H. left; reflexivity.
  - apply IH. intros Hin. apply H. right; assumption.
Qed.

Lemma lookup_Some_In k (o : obj) v : lookup k o = Some v -> In k (map fst o).
Proof.
  induction o as [|[k0 v0] o IH]; simpl; intros H; [discriminate |].
  destruct (String.eqb k k0) eqn:E.
  - apply String.eqb_eq in E. left. congruence.
  - right. apply IH; assumption.
Qed.

Lemma lookup_rev_NoDup k (o : obj) :
  NoDup (map fst o) -> lookup k (rev o) = lookup k o.
Proof.
  induction o as [|[k0 v0] o IH]; simpl; intros Hnd; [reflexivity |].
  inversion Hnd as [|? ? Hnotin Hnd']; subst.
  rewrite lookup_app, (IH Hnd'). simpl.
  destruct (String.eqb k k0) eqn:E.
  - apply String.eqb_eq in E. subst. rewrite (lookup_None_notin _ _ Hnotin). reflexivity.
  - destruct (lookup k o); reflexivity.
Qed.

(** In [_.assign(target, source)] the last entry of the source for a key
    wins, and the target shows through where the source has none. *)
Lemma lookup_assign k (source : obj) : forall target,
  lookup k (assign target source) =
  match lookup k (rev source) with Some v => Some v | None => lookup k target end.
Proof.
  unfold assign. induction source as [|[k0 v0] source IH]; intros target; simpl.
  - reflexivity.
  - rewrite IH, lookup_app, lookup_set_prop. simpl.
    destruct (lookup k (rev source)); [reflexivity |].
    destruct (String.eqb k k0); reflexivity.
Qed.

(** ** What one compiled template holds *)

(** The identity of a template: its fixed [type], the declaration's [name]
    as [name] and as [function], the (truthy) handler as [entryPoint], and as
    [runtime] what the provider's [getRuntime] answers, never the placeholder
    [getFunctionTemplate] starts with. *)
Theorem template_identity_fields ext provider afp pn f functionName tpl :
  compileFunction ext provider afp pn f functionName = Ok tpl ->
  type tpl = "gcp-types/cloudfunctions-v1:projects.locations.functions"
  /\ name tpl = get f "name"
  /\ lookup "function" (properties tpl) = Some (get f "name")
  /\ lookup "entryPoint" (properties tpl) = Some (get f "handler")
  /\ truthy (get f "handler") = true
  /\ lookup "runtime" (properties tpl) = Some (getRuntime ext provider f).
Proof.
  intros H.
  destruct (overlay_fixed_fields ext provider afp pn f) as (_ & Hr & He & Hf & _).
  rewrite !(compileFunction_lookup _ _ _ _ _ _ _ H) by reflexivity.
  apply compileFunction_Ok_inv in H as (Hh & _ & _ & p' & _ & ->).
  repeat split; assumption.
Qed.

Lemma template_identity_fields_witness :
  exists tpl,
    compileSample plainProvider declHttp = Ok tpl
    /\ name tpl = VStr "svc-dev-hello"
    /\ lookup "entryPoint" (properties tpl) = Some (VStr "hello")
    /\ lookup "runtime" (properties tpl) = Some (VStr "nodejs10").
Proof.
  eexists. split; [vm_compute; reflexivity |].
  destruct (template_identity_fields specCollaborators plainProvider
              sampleArtifactFilePath (VStr "my-project") declHttp "hello" eq_refl)
    as (_ & Hn & _ & He & _ & Hr).
  split; [exact Hn |]. split; [exact He | exact Hr].
Defined.

(** The networking values are the declaration's own: whatever [vpcConnector],
    [vpcConnectorEgressSettings] or [ingressSettings] a template holds is the
    declaration's [vpc], [egress] or [ingress]; the provider's value of the
    same name is never emitted. *)
Theorem networking_values_are_the_declaration_s ext provider afp pn f functionName tpl :
  compileFunction ext provider afp pn f functionName = Ok tpl ->
  (forall v, lookup "vpcConnector" (properties tpl) = Some v -> v = get f "vpc")
  /\ (forall v, lookup "vpcConnectorEgressSettings" (properties tpl) = Some v ->
                v = get f "egress")
  /\ (forall v, lookup "ingressSettings" (properties tpl) = Some v ->
                v = get f "ingress").
Proof.
  intros H.
  rewrite !(compileFunction_lookup _ _ _ _ _ _ _ H) by reflexivity.
  rewrite overlay_vpcConnector, overlay_vpcConnectorEgressSettings, overlay_ingressSettings.
  repeat split; intros v E;
    match type of E with (if ?b then _ else _) = _ => destruct b end;
    congruence.
Qed.

Lemma networking_values_are_the_declaration_s_witness :
  exists tpl,
    compileSample providerWithDefaults (declEgressIngress "PRIVATE_RANGES_ONLY" "ALLOW_ALL")
    = Ok tpl
    /\ get providerWithDefaults "egress" = VStr "ALL_TRAFFIC"
    /\ (forall v, lookup "vpcConnectorEgressSettings" (properties tpl) = Some v ->
                  v = VStr "PRIVATE_RANGES_ONLY").
Proof.
  eexists. split; [vm_compute; reflexivity |]. split; [reflexivity |].
  destruct (networking_values_are_the_declaration_s specCollaborators providerWithDefaults
              sampleArtifactFilePath (VStr "my-project")
              (declEgressIngress "PRIVATE_RANGES_ONLY" "ALLOW_ALL") "hello" eq_refl)
    as (_ & He & _).
  exact He.
Defined.

(** [maxInstances] is in the template exactly when the declaration's own
    [maxInstances] is truthy, and then with that value; the provider
    configuration has no say. *)
Theorem maxInstances_has_no_provider_default ext provider afp pn f functionName tpl :
  compileFunction ext provider afp pn f functionName = Ok tpl ->
  lookup "maxInstances" (properties tpl)
  = (if truthy (get f "maxInstances") then Some (get f "maxInstances") else None).
Proof.
  intros H. rewrite (compileFunction_lookup _ _ _ _ _ _ _ H) by reflexivity.
  apply overlay_maxInstances.
Qed.

Lemma maxInstances_has_no_provider_default_witness :
  exists tpl,
    compileSample providerLabelled declHttp = Ok tpl
    /\ get providerLabelled "maxInstances" = VNum 100
    /\ lookup "maxInstances" (properties tpl) = None.
Proof.
  eexists. split; [vm_compute; reflexivity |]. split; [reflexivity |].
  exact (maxInstances_has_no_provider_default specCollaborators providerLabelled
           sampleArtifactFilePath (VStr "my-project") declHttp "hello" eq_refl).
Defined.

(** [timeout] is the declaration's [timeout] if that is truthy, else the
    provider's if that is truthy, else ["60s"]. *)
Theorem timeout_precedence ext provider afp pn f functionName tpl :
  compileFunction ext provider afp pn f functionName = Ok tpl ->
  lookup "timeout" (properties tpl) =
  Some (if truthy (get f "timeout") then get f "timeout"
        else if truthy (get provider "timeout") then get provider "timeout"
        else VStr "60s").
Proof.
  intros H. rewrite (compileFunction_lookup _ _ _ _ _ _ _ H) by reflexivity.
  rewrite overlay_timeout, js_or_assoc. reflexivity.
Qed.

Lemma timeout_precedence_witness :
  exists tpl,
    compileSample providerLabelled declLabelled = Ok tpl
    /\ get providerLabelled "timeout" = VStr "30s"
    /\ lookup "timeout" (properties tpl) = Some (VStr "120s").
Proof.
  eexists. split; [vm_compute; reflexivity |]. split; [reflexivity |].
  exact (timeout_precedence specCollaborators providerLabelled
           sampleArtifactFilePath (VStr "my-project") declLabelled "hello" eq_refl).
Defined.

(** [labels] is always in the template and is the merge of the provider's
    labels and the declaration's: a key of the declaration's labels has the
    declaration's value, any other key what the provider's labels give it. *)
Theorem labels_are_merged ext provider afp pn f functionName tpl :
  compileFunction ext provider afp pn f functionName = Ok tpl ->
  NoDup (map fst (labelEntries (get f "labels"))) ->
  NoDup (map fst (labelEntries (get provider "labels"))) ->
  exists labels,
    lookup "labels" (properties tpl) = Some (VObj labels)
    /\ forall k,
         lookup k labels =
         match lookup k (labelEntries (get f "labels")) with
         | Some v => Some v
         | None => lookup k (labelEntries (get provider "labels"))
         end.
Proof.
  intros H Hf Hp. rewrite (compileFunction_lookup _ _ _ _ _ _ _ H) by reflexivity.
  rewrite overlay_labels. eexists. split; [reflexivity |].
  intros k. rewrite !lookup_assign, (lookup_rev_NoDup _ _ Hf), (lookup_rev_NoDup _ _ Hp).
  destruct (lookup k (labelEntries (get f "labels"))); [reflexivity |].
  destruct (lookup k (labelEntries (get provider "labels"))); reflexivity.
Qed.

Lemma labels_are_merged_witness :
  exists tpl labels,
    compileSample providerLabelled declLabelled = Ok tpl
    /\ lookup "labels" (properties tpl) = Some (VObj labels)
    /\ lookup "team" labels = Some (VStr "billing")
    /\ lookup "env" labels = Some (VStr "dev")
    /\ lookup "tier" labels = Some (VStr "backend").
Proof.
  assert (Hf : NoDup (map fst (labelEntries (get declLabelled "labels")))).
  { cbn. repeat constructor; cbn; intuition discriminate. }
  assert (Hp : NoDup (map fst (labelEntries (get providerLabelled "labels")))).
  { cbn. repeat constructor; cbn; intuition discriminate. }
  destruct (labels_are_merged specCollaborators providerLabelled
              sampleArtifactFilePath (VStr "my-project") declLabelled "hello"
              eq_refl Hf Hp) as (labels & Hl & Hk).
  eexists. exists labels. split; [vm_compute; reflexivity |].
  split; [exact Hl |].
  split; [exact (Hk "team") |]. split; [exact (Hk "env") | exact (Hk "tier")].
Defined.

(** A template holds no property beyond the sixteen the compiler knows:
    nothing else a declaration or the provider configuration carries is
    copied into it. *)
Theorem template_has_only_known_keys ext provider afp pn f functionName tpl k :
  compileFunction ext provider afp pn f functionName = Ok tpl ->
  has_key k (properties tpl) = true ->
  In k templateKeys.
Proof.
  intros H Hk. apply compileFunction_Ok_inv in H as (_ & _ & _ & p' & Ht & ->).
  cbn [properties with_properties] in Hk. unfold has_key in Hk.
  assert (Hov : forall v, lookup k (properties (overlayTemplate ext provider afp pn f))
                          = Some v -> In k templateKeys).
  { intros v Hv. apply lookup_Some_In in Hv. rewrite overlay_properties in Hv.
    rewrite !map_app in Hv. unfold optional in Hv.
    repeat (apply in_app_or in Hv; destruct Hv as [Hv|Hv]);
      repeat match type of Hv with
             | context [if ?b then _ else _] => destruct b
             end;
      cbn in Hv |- *; intuition. }
  apply compileTrigger_inv in Ht as (ty & _ & Hc).
  destruct Hc as [(_ & _ & ev0 & url & _ & _ & ->)
                 |[(_ & _ & t & pa & r & _ & _ & _ & ->)|(_ & _ & ->)]].
  - rewrite lookup_set_prop in Hk.
    destruct (String.eqb k "httpsTrigger") eqn:E.
    + apply String.eqb_eq in E. subst. cbn. intuition.
    + destruct (lookup k _) eqn:L; [exact (Hov _ eq_refl) | discriminate].
  - rewrite lookup_set_prop in Hk.
    destruct (String.eqb k "eventTrigger") eqn:E.
    + apply String.eqb_eq in E. subst. cbn. intuition.
    + destruct (lookup k _) eqn:L; [exact (Hov _ eq_refl) | discriminate].
  - destruct (lookup k _) eqn:L; [exact (Hov _ eq_refl) | discriminate].
Qed.

Lemma template_has_only_known_keys_witness :
  exists tpl,
    compileSample providerLabelled declLabelled = Ok tpl
    /\ In "maxInstances" templateKeys.
Proof.
  eexists. split; [vm_compute; reflexivity |].
  apply (@template_has_only_known_keys specCollaborators providerLabelled
           sampleArtifactFilePath (VStr "my-project") declLabelled "hello"
           _ "maxInstances" eq_refl).
  vm_compute. reflexivity.
Defined.

(** ** The validators on their own *)

Lemma ci_eqb_upcase p : forall s, ci_eqb true p s = true <-> upcase p = upcase s.
Proof.
  induction p as [|c p IH]; intros [|d s]; simpl; split; intros H;
    try reflexivity; try discriminate.
  - apply andb_true_iff in H as [Hc Hs]. unfold char_match in Hc.
    apply Ascii.eqb_eq in Hc. apply IH in Hs. congruence.
  - inversion H as [[Hc Hs]]. apply andb_true_iff. split.
    + unfold char_match. rewrite Hc. apply Ascii.eqb_refl.
    + apply IH; assumption.
Qed.

(** What the VPC validator lets through: a string [vpc] passes exactly when
    it is empty or holds, in this order and in any letter case, [projects/],
    [/locations/] and [/connectors/] with anything before, between and after
    them; any other string gets the invalid-connector-name error. *)
Theorem vpc_validator_accepts f functionName s :
  get f "vpc" = VStr s ->
  (validateVpcConnectorProperty f functionName = Ok tt <->
   s = "" \/
   exists pre p a l b c z,
     s = pre ++ p ++ a ++ l ++ b ++ c ++ z
     /\ upcase p = "PROJECTS/"
     /\ upcase l = "/LOCATIONS/"
     /\ upcase c = "/CONNECTORS/")
  /\ (validateVpcConnectorProperty f functionName <> Ok tt ->
      validateVpcConnectorProperty f functionName
      = Throw (Error (invalidVpcMessage functionName))).
Proof.
  intros E.
  assert (Hspec : regex_test vpcNamePattern s = true <->
                  exists pre p a l b c z,
                    s = pre ++ p ++ a ++ l ++ b ++ c ++ z
                    /\ upcase p = "PROJECTS/"
                    /\ upcase l = "/LOCATIONS/"
                    /\ upcase c = "/CONNECTORS/").
  { rewrite vpcNamePattern_spec. split;
      intros (pre & p & a & l & b & c & z & Hs & Hp & Hl & Hc);
      exists pre, p, a, l, b, c, z; (split; [exact Hs |]).
    - apply ci_eqb_upcase in Hp, Hl, Hc. cbn in Hp, Hl, Hc. auto.
    - repeat split; apply ci_eqb_upcase; cbn; auto. }
  destruct s as [|c0 s0].
  - unfold validateVpcConnectorProperty. rewrite E. cbn. split; [| congruence].
    split; auto.
  - rewrite (@validateVpcConnectorProperty_string f functionName _ E) by discriminate.
    destruct (regex_test vpcNamePattern (String c0 s0)) eqn:R; split.
    + split; [intros _; right; apply Hspec; reflexivity | reflexivity].
    + congruence.
    + split; [discriminate |].
      intros [H|H]; [discriminate | apply Hspec in H; discriminate].
    + reflexivity.
Qed.

Lemma vpc_validator_accepts_witness :
  exists pre p a l b c z,
    "x-Projects/p/LOCATIONS/r/connectors/c/more"
    = pre ++ p ++ a ++ l ++ b ++ c ++ z
    /\ upcase p = "PROJECTS/"
    /\ upcase l = "/LOCATIONS/"
    /\ upcase c = "/CONNECTORS/".
Proof.
  destruct (proj1 (proj1 (@vpc_validator_accepts
                            (declVpc "x-Projects/p/LOCATIONS/r/connectors/c/more")
                            "hello" _ eq_refl)) eq_refl) as [H|H].
  - discriminate.
  - exact H.
Defined.

(** The egress and ingress validators, which nothing calls: each lets a
    falsy value, a value that is not a string, and the values of its list
    through, exact to the letter, and throws its own error on any other
    string. *)
Theorem egress_ingress_validators_accept f functionName :
  (validateVpcEgressProperty f functionName = Ok tt <->
   truthy (get f "egress") = false \/ is_string (get f "egress") = false
   \/ exists s, get f "egress" = VStr s /\ In s egressValidTypes)
  /\ (validateVpcEgressProperty f functionName <> Ok tt ->
      validateVpcEgressProperty f functionName
      = Throw (Error (invalidEgressMessage functionName)))
  /\ (validateVpcIngressProperty f functionName = Ok tt <->
      truthy (get f "ingress") = false \/ is_string (get f "ingress") = false
      \/ exists s, get f "ingress" = VStr s /\ In s ingressValidTypes)
  /\ (validateVpcIngressProperty f functionName <> Ok tt ->
      validateVpcIngressProperty f functionName
      = Throw (Error (invalidIngressMessage functionName))).
Proof.
  unfold validateVpcEgressProperty, validateVpcIngressProperty.
  repeat split.
  - destruct (truthy (get f "egress")) eqn:T; [| auto].
    destruct (get f "egress") as [| | | |s| |] eqn:G; cbn [is_string andb]; auto.
    destruct (includes egressValidTypes (VStr s)) eqn:I; cbn [negb]; [| discriminate].
    intros _. right; right. exists s. split; [reflexivity | apply includes_In; assumption].
  - intros [H|[H|(s & Hs & Hin)]].
    + rewrite H. reflexivity.
    + rewrite H, andb_false_r. reflexivity.
    + rewrite Hs in *. apply includes_In in Hin. rewrite Hin.
      destruct (truthy (VStr s) && is_string (VStr s)); reflexivity.
  - destruct (truthy (get f "egress") && is_string (get f "egress")); [| congruence].
    destruct (includes egressValidTypes (get f "egress")); cbn [negb]; congruence.
  - destruct (truthy (get f "ingress")) eqn:T; [| auto].
    destruct (get f "ingress") as [| | | |s| |] eqn:G; cbn [is_string andb]; auto.
    destruct (includes ingressValidTypes (VStr s)) eqn:I; cbn [negb]; [| discriminate].
    intros _. right; right. exists s. split; [reflexivity | apply includes_In; assumption].
  - intros [H|[H|(s & Hs & Hin)]].
    + rewrite H. reflexivity.
    + rewrite H, andb_false_r. reflexivity.
    + rewrite Hs in *. apply includes_In in Hin. rewrite Hin.
      destruct (truthy (VStr s) && is_string (VStr s)); reflexivity.
  - destruct (truthy (get f "ingress") && is_string (get f "ingress")); [| congruence].
    destruct (includes ingressValidTypes (get f "ingress")); cbn [negb]; congruence.
Qed.

(** ** When the first event cannot be read *)


Lemma triggerResolves_of_firstEvent f ev0 :
  firstEvent f = Ok ev0 ->
  triggerResolves f =
  negb (nullish ev0)
  && negb (match ev0 with
           | VObj ((k, e) :: _) => String.eqb k "event" && nullish e
           | _ => false
           end).
Proof.
  intros E. unfold triggerResolves, compileTrigger, eventTypeOf, eventField.
  rewrite E. cbn [rbind].
  destruct ev0 as [| |b|n|s|o|l]; try reflexivity.
  - destruct s; reflexivity.
  - destruct o as [|[k e] rest]; [reflexivity |].
    cbn [Object_keys own_entries map fst first_key rbind strict_eq_str nullish negb andb].
    destruct (String.eqb k "http") eqn:Eh.
    + apply String.eqb_eq in Eh. subst k. reflexivity.
    + cbn [rbind]. destruct (String.eqb k "event") eqn:Ee; [| reflexivity].
      apply String.eqb_eq in Ee. subst k.
      cbn [get_member get lookup String.eqb Ascii.eqb Bool.eqb rbind andb].
      destruct e; reflexivity.
  - destruct l; reflexivity.
Qed.

(** The first event is unreadable exactly when [events] is [undefined] or
    [null], or its first entry is, or that entry's first key is [event] with
    an [undefined] or [null] value. *)
Theorem unreadable_first_event f :
  triggerResolves f = false <->
  nullish (get f "events") = true
  \/ exists ev0,
       firstEvent f = Ok ev0
       /\ (nullish ev0 = true
           \/ exists e rest, ev0 = VObj (("event", e) :: rest) /\ nullish e = true).
Proof.
  destruct (firstEvent f) as [ev0|e0] eqn:E.
  - rewrite (triggerResolves_of_firstEvent f E). split.
    + intros H. right. exists ev0. split; [reflexivity |].
      destruct (nullish ev0) eqn:N; [left; reflexivity | right].
      cbn [negb andb] in H. apply negb_false_iff in H.
      destruct ev0 as [| | | | |[|[k e] rest]|]; try discriminate.
      apply andb_true_iff in H as [Hk He]. apply String.eqb_eq in Hk. subst k.
      eauto.
    + intros [H|(ev & Hev & [H|(e & rest & -> & He)])].
      * unfold firstEvent in E. destruct (get f "events"); discriminate.
      * inversion Hev; subst ev. rewrite H. reflexivity.
      * inversion Hev; subst ev0. cbn [nullish negb andb String.eqb Ascii.eqb Bool.eqb].
        rewrite He. reflexivity.
  - split.
    + intros _. left. unfold firstEvent in E. destruct (get f "events"); try discriminate;
        reflexivity.
    + intros _. unfold triggerResolves, compileTrigger, eventTypeOf. rewrite E. reflexivity.
Qed.

(** ** The outcome of one declaration *)





(** ** The whole pass, whatever its outcome *)

Section PassFacts.

Variable ext : Collaborators.

Lemma compiled_nil st : compiled st [] [] = st.
Proof. destruct st. unfold compiled. cbn. rewrite !app_nil_r. reflexivity. Qed.

Lemma compileCallback_state pn n st :
  exists ls ts,
    snd (compileCallback ext pn n st) = compiled st ls ts
    /\ List.length ts <= 1.
Proof.
  destruct (find_function n (functions st)) as [f|] eqn:E.
  - rewrite (compileCallback_run ext pn n st E).
    destruct (compileFunction ext (provider st) (artifactFilePath st) pn f n) as [t|e].
    + exists [n], [t]. split; [reflexivity | cbn; lia].
    + exists [n], []. split; [reflexivity | cbn; lia].
  - exists [], []. rewrite compiled_nil. split; [| cbn; lia].
    unfold compileCallback, bind, getFunction. rewrite E. reflexivity.
Qed.

Lemma forEach_state pn names : forall st,
  exists ls ts,
    snd (forEach names (compileCallback ext pn) st) = compiled st ls ts
    /\ List.length ts <= List.length names.
Proof.
  induction names as [|n names IH]; intros st.
  - exists [], []. rewrite compiled_nil. split; [reflexivity | cbn; lia].
  - cbn [forEach]. unfold bind.
    destruct (compileCallback_state pn n st) as (l1 & t1 & E1 & L1).
    destruct (compileCallback ext pn n st) as [[[]|e] st1]; cbn [snd] in E1 |- *.
    + destruct (IH st1) as (l2 & t2 & E2 & L2).
      exists (l1 ++ l2)%list, (t1 ++ t2)%list. rewrite E2, E1, compiled_compiled.
      split; [reflexivity |]. rewrite length_app. cbn. lia.
    + exists l1, t1. split; [assumption | cbn; lia].
Qed.


End PassFacts.

Lemma get_set_prop_same k v o : get (set_prop k v o) k = v.
Proof. unfold get. rewrite lookup_set_prop, String.eqb_refl. reflexivity. Qed.

(** Whether it returns or throws, [compileFunctions] only adds to the
    resources array: what was there stays, in place, and at most one entry
    per declared function comes after it. *)
Theorem resources_only_grow ext this :
  exists added,
    resources (snd (compileFunctions ext this)) = (resources this ++ added)%list
    /\ List.length added <= List.length (functions this).
Proof.
  rewrite compileFunctions_unfold.
  destruct (forEach_state ext (get (provider this) "project") (getAllFunctions this)
              (withDefaults this)) as (ls & ts & E & L).
  rewrite E. exists (map template_value ts). split; [reflexivity |].
  unfold getAllFunctions in L. rewrite length_map in *. assumption.
Qed.

(** Whether it returns or throws, [compileFunctions] leaves the provider
    configuration with a truthy region, the one it had or else
    [us-central1], and with every other key as it was; the declared
    functions are untouched, and the package's [artifactFilePath] is the
    artifact directory name followed by the artifact's file name. *)
Theorem region_is_defaulted_in_place ext this :
  get (provider (snd (compileFunctions ext this))) "region"
  = (if truthy (get (provider this) "region") then get (provider this) "region"
     else VStr "us-central1")
  /\ truthy (get (provider (snd (compileFunctions ext this))) "region") = true
  /\ (forall k, String.eqb k "region" = false ->
                lookup k (provider (snd (compileFunctions ext this)))
                = lookup k (provider this))
  /\ functions (snd (compileFunctions ext this)) = functions this
  /\ artifactFilePath (snd (compileFunctions ext this))
     = VStr (toString (artifactDirectoryName this) ++ "/"
               ++ toString (pop (split path_sep (artifact this)))).
Proof.
  rewrite compileFunctions_unfold.
  destruct (forEach_state ext (get (provider this) "project") (getAllFunctions this)
              (withDefaults this)) as (ls & ts & E & _).
  rewrite E.
  cbn [compiled provider functions artifactFilePath withDefaults set_artifactFilePath
       set_provider].
  rewrite !get_set_prop_same.
  repeat split.
  - rewrite truthy_js_or. apply orb_true_r.
  - intros k Hk. rewrite lookup_set_prop, Hk. reflexivity.
Qed.







(** ** Paths *)

Lemma split_not_nil sep s : split sep s <> [].
Proof.
  destruct s as [|c s]; cbn; [discriminate |].
  destruct (Ascii.eqb c sep); [discriminate |].
  destruct (split sep s); discriminate.
Qed.

Lemma pop_cons x y l : pop (x :: y :: l) = pop (y :: l).
Proof.
  unfold pop. change (rev (x :: y :: l)) with (rev (y :: l) ++ [x])%list.
  destruct (rev (y :: l)) as [|h t] eqn:E; [| reflexivity].
  apply (f_equal (@List.length string)) in E. rewrite length_rev in E. discriminate.
Qed.

(** Splitting at a separator and joining with it gives the string back; the
    segments hold no separator, and there is at least one. *)
Lemma split_join_round_trip sep s :
  join (String sep "") (split sep s) = s
  /\ Forall (fun segment => no_sep sep segment = true) (split sep s)
  /\ split sep s <> [].
Proof.
  split; [| split; [| apply split_not_nil]].
  - induction s as [|c s IH]; [reflexivity |].
    cbn [split]. destruct (Ascii.eqb c sep) eqn:E.
    + apply Ascii.eqb_eq in E. subst c.
      destruct (split sep s) as [|seg segs] eqn:Es; [destruct (split_not_nil _ _ Es) |].
      change (join (String sep "") ("" :: seg :: segs))
        with (String sep (join (String sep "") (seg :: segs))).
      rewrite IH. reflexivity.
    + destruct (split sep s) as [|seg segs] eqn:Es; [destruct (split_not_nil _ _ Es) |].
      destruct segs as [|seg' segs']; cbn [join] in IH |- *; rewrite <- IH; reflexivity.
  - induction s as [|c s IH]; [repeat constructor |].
    cbn [split]. destruct (Ascii.eqb c sep) eqn:E.
    + constructor; [reflexivity | assumption].
    + destruct (split sep s) as [|seg segs] eqn:Es; [destruct (split_not_nil _ _ Es) |].
      inversion IH as [|? ? Hseg Hsegs]; subst.
      constructor; [| assumption].
      unfold no_sep in *. cbn [list_ascii_of_string forallb]. rewrite E, Hseg. reflexivity.
Qed.

Lemma pop_of_join sep l :
  l <> [] ->
  exists dir f,
    pop l = VStr f /\ In f l
    /\ join (String sep "") l = dir ++ f
    /\ (dir = "" \/ exists d, dir = d ++ String sep "").
Proof.
  induction l as [|x [|y l] IH]; intros Hl; [contradiction | |].
  - exists "", x. cbn. auto.
  - destruct IH as (dir & f & Hp & Hin & Hj & Hd); [discriminate |].
    exists (x ++ String sep "" ++ dir), f.
    rewrite pop_cons. split; [assumption |]. split; [right; assumption |]. split.
    + change (join (String sep "") (x :: y :: l))
        with (x ++ String sep "" ++ join (String sep "") (y :: l)).
      rewrite Hj, !append_assoc. reflexivity.
    + right. destruct Hd as [->|(d & ->)].
      * exists x. rewrite append_nil_r. reflexivity.
      * exists (x ++ String sep "" ++ d). rewrite !append_assoc. reflexivity.
Qed.

(** The file name taken from the artifact path: the path is a directory part
    followed by the file name, the file name holds no separator, and the
    directory part is empty or ends with a separator.  A path without a
    separator is its own file name. *)
Theorem fileName_is_the_last_segment (artifactPath : string) :
  exists dir fileName,
    pop (split path_sep artifactPath) = VStr fileName
    /\ artifactPath = dir ++ fileName
    /\ no_sep path_sep fileName = true
    /\ (dir = "" \/ exists d, dir = d ++ String path_sep "")
    /\ (no_sep path_sep artifactPath = true -> fileName = artifactPath).
Proof.
  destruct (split_join_round_trip path_sep artifactPath) as (Hj & Hall & Hne).
  destruct (pop_of_join path_sep Hne) as (dir & f & Hp & Hin & Hjoin & Hd).
  exists dir, f. rewrite Hj in Hjoin.
  split; [assumption |]. split; [assumption |].
  split; [rewrite Forall_forall in Hall; apply Hall; assumption |].
  split; [assumption |].
  intros Hno. destruct Hd as [->|(d & ->)]; [symmetry; assumption |].
  exfalso. subst artifactPath. clear - Hno.
  induction d as [|c d IH]; cbn in Hno.
  - discriminate.
  - apply andb_true_iff in Hno as [_ Hno]. apply IH; assumption.
Qed.

(** ** Where a template points *)

(** In a template made during [compileFunctions], [parent] names the
    provider's project and its region, [us-central1] standing in for a falsy
    region, and [sourceArchiveUrl] is the deployment bucket, the artifact
    directory name and the file name of the artifact. *)
Theorem template_location_fields ext this n f t :
  templateOf ext this n f = Ok t ->
  lookup "parent" (properties t)
  = Some (VStr ("projects/" ++ toString (get (provider this) "project")
                  ++ "/locations/"
                  ++ toString (if truthy (get (provider this) "region")
                               then get (provider this) "region"
                               else VStr "us-central1")))
  /\ lookup "sourceArchiveUrl" (properties t)
     = Some (VStr ("gs://" ++ toString (get (provider this) "deploymentBucketName")
                     ++ "/" ++ toString (artifactDirectoryName this)
                     ++ "/" ++ toString (pop (split path_sep (artifact this))))).
Proof.
  unfold templateOf. intros H.
  rewrite !(compileFunction_lookup _ _ _ _ _ _ _ H) by reflexivity.
  destruct (overlay_fixed_fields ext (provider (withDefaults this))
              (artifactFilePath (withDefaults this)) (get (provider this) "project") f)
    as (Hp & _ & _ & _ & Hu).
  rewrite Hp, Hu.
  cbn [withDefaults provider artifactFilePath set_artifactFilePath set_provider toString].
  rewrite get_set_prop_same.
  split; [reflexivity |].
  unfold get at 1. rewrite lookup_set_prop. reflexivity.
Qed.

Lemma template_location_fields_witness :
  exists t,
    templateOf specCollaborators serviceOfTwo "hello" declHttp = Ok t
    /\ lookup "parent" (properties t)
       = Some (VStr "projects/my-project/locations/us-central1")
    /\ lookup "sourceArchiveUrl" (properties t)
       = Some (VStr "gs://my-bucket/serverless/my-service/dev/1/my-service.zip").
Proof.
  eexists. split; [vm_compute; reflexivity |].
  exact (@template_location_fields specCollaborators serviceOfTwo "hello" declHttp _
           eq_refl).
Defined.

(** ** Running the pass again *)






(** A number is interpolated the way the engine prints it: in full up to 21
    digits, in exponent form beyond. *)
Example numbers_in_template_literals :
  toString (VNum 512) = "512"
  /\ toString (VNum (-42)) = "-42"
  /\ toString (VNum 9007199254740993) = "9007199254740992"
  /\ toString (VNum 1152921504606846976) = "1152921504606847000"
  /\ toString (VNum 999999999999999868928) = "999999999999999900000"
  /\ toString (VNum 1000000000000000000000) = "1e+21"
  /\ toString (VNum 123456789012345678901234) = "1.2345678901234569e+23".
Proof. repeat split; vm_compute; reflexivity. Qed.

Example numeric_project_in_parent :
  exists t,
    templateOf specCollaborators serviceNumericProject "hello" declHttp = Ok t
    /\ lookup "parent" (properties t)
       = Some (VStr "projects/1e+21/locations/us-central1").
Proof.
  eexists. split; [vm_compute; reflexivity |].
  vm_compute. reflexivity.
Qed.
